(** * CEFR level annotator: the classifier and the TSV rewriter

    A shallow embedding of [4000/add_cefr_levels_offline.js] and of
    [4000/add_cefr_levels.js].

    JavaScript strings are sequences of UTF-16 code units: a string is a list
    of code units, a code unit is an [N].  The classes [\s] and [\w] and the
    string methods [trim], [includes], [startsWith], [split], [join] and
    [replace] are written out on code units.  [String.prototype.toLowerCase]
    and [toUpperCase] depend on the Unicode case tables; they are parameters
    of the development, and the only fact assumed of [toLowerCase] is that on
    a string of ASCII code units it lowers the letters A-Z and leaves every
    other code unit alone.  The number of arguments the engine passes in a
    call, which [Math.max(...levels)] depends on, is a parameter too. *)

From Stdlib Require Import List NArith Bool String Ascii Arith Lia.
Import ListNotations.


(* ================================================================== *)
(** ** JavaScript strings *)

Module JS.

Definition str := list N.

(** A string literal of the source. *)
Definition lit (s : string) : str := map N_of_ascii (list_ascii_of_string s).

Definition TAB : N := 9.
Definition LF : N := 10.
Definition CR : N := 13.
Definition SPACE : N := 32.
Definition HASH : N := 35.

Fixpoint eqb (a b : str) : bool :=
  match a, b with
  | [], [] => true
  | x :: a', y :: b' => N.eqb x y && eqb a' b'
  | _, _ => false
  end.

(** [s.length]. *)
Definition length (s : str) : nat := List.length s.

(** A string is truthy when it is not empty. *)
Definition truthy (s : str) : bool :=
  match s with [] => false | _ :: _ => true end.

(** The class [\s] of a regular expression without the [u] flag, which is also
    the set [trim] removes: WhiteSpace and LineTerminator of ECMAScript. *)
Definition isWhiteSpace (c : N) : bool :=
  ((9 <=? c) && (c <=? 13) || (c =? 32) || (c =? 160) || (c =? 5760)
   || (8192 <=? c) && (c <=? 8202) || (c =? 8232) || (c =? 8233)
   || (c =? 8239) || (c =? 8287) || (c =? 12288) || (c =? 65279))%N.

(** The class [\w]: [A-Za-z0-9_]. *)
Definition isWordChar (c : N) : bool :=
  ((65 <=? c) && (c <=? 90) || (97 <=? c) && (c <=? 122)
   || (48 <=? c) && (c <=? 57) || (c =? 95))%N.

(** The class [a-z]. *)
Definition isLowerAZ (c : N) : bool := ((97 <=? c) && (c <=? 122))%N.

Definition isAscii (c : N) : bool := (c <? 128)%N.

(** What [toLowerCase] does to an ASCII code unit. *)
Definition asciiLower (c : N) : N :=
  if ((65 <=? c) && (c <=? 90))%N then (c + 32)%N else c.

(** The assumption on the parameter [toLowerCase]. *)
Definition LowerCaseOnAscii (toLowerCase : str -> str) : Prop :=
  forall s, forallb isAscii s = true -> toLowerCase s = map asciiLower s.

(** An instance: exact on strings of ASCII code units. *)
Definition asciiToLowerCase (s : str) : str := map asciiLower s.

Fixpoint trimStart (s : str) : str :=
  match s with
  | [] => []
  | c :: s' => if isWhiteSpace c then trimStart s' else s
  end.

Definition trimEnd (s : str) : str := rev (trimStart (rev s)).

Definition trim (s : str) : str := trimEnd (trimStart s).

(** [s.includes(c)] and [s.startsWith(c)] for a pattern of one code unit. *)
Definition includes (s : str) (c : N) : bool := existsb (N.eqb c) s.

Definition startsWith (s : str) (c : N) : bool :=
  match s with
  | [] => false
  | x :: _ => N.eqb x c
  end.

(** [s.split(sep)] for a separator of one code unit; the empty string splits
    into one empty field. *)
Fixpoint split (sep : N) (s : str) : list str :=
  match s with
  | [] => [[]]
  | c :: s' =>
      if N.eqb c sep then [] :: split sep s'
      else match split sep s' with
           | [] => [[c]]
           | w :: ws => (c :: w) :: ws
           end
  end.

(** [xs.join(sep)]. *)
Fixpoint join (sep : N) (xs : list str) : str :=
  match xs with
  | [] => []
  | [x] => x
  | x :: xs' => x ++ sep :: join sep xs'
  end.

(** [s.split(/\s+/)]: every maximal run of white space is one separator, so
    leading or trailing white space leaves an empty first or last piece.
    [inRun] tells that the previous code unit belonged to a separator. *)
Fixpoint splitRuns (inRun : bool) (s : str) : list str :=
  match s with
  | [] => [[]]
  | c :: s' =>
      if isWhiteSpace c then
        if inRun then splitRuns true s' else [] :: splitRuns true s'
      else match splitRuns false s' with
           | [] => [[c]]
           | w :: ws => (c :: w) :: ws
           end
  end.

Definition splitWhiteSpace (s : str) : list str := splitRuns false s.

(** [s.replace(/[^\w\s]/g, '')]. *)
Definition removePunctuation (s : str) : str :=
  filter (fun c => isWordChar c || isWhiteSpace c) s.

(** [/^[a-z]+$/.test(s)]. *)
Definition testLowerLetters (s : str) : bool :=
  truthy s && forallb isLowerAZ s.

(** [s.replace(/\r?\n$/, '')]: without the [m] flag [$] is the end of the
    string, so the leftmost match is a final LF with the CR before it, if
    any. *)
Fixpoint replaceTerminator (s : str) : str :=
  match s with
  | [] => []
  | c :: s' =>
      if (N.eqb c CR && eqb s' [LF]) || (N.eqb c LF && eqb s' []) then []
      else c :: replaceTerminator s'
  end.

(** [new Set([...]).has(x)]. *)
Definition has (set : list str) (x : str) : bool := existsb (eqb x) set.

(** [xs[i] = v] for an index inside the array. *)
Fixpoint update (i : nat) (v : str) (xs : list str) : list str :=
  match xs, i with
  | [], _ => []
  | _ :: xs', O => v :: xs'
  | x :: xs', S i' => x :: update i' v xs'
  end.

End JS.

(* ================================================================== *)
(** ** Results of a call *)

Inductive exn : Type :=
| TypeError      (* a method called on [undefined] *)
| SyntaxError    (* [JSON.parse] *)
| NetworkError   (* the request's 'error' event *)
| Timeout        (* [new Error('Timeout')] *)
| RangeError.    (* a call with more arguments than the engine passes *)

Inductive result (A : Type) : Type :=
| Ok (a : A)
| Throw (e : exn)
| OutOfFuel.

Arguments Ok {A} a.
Arguments Throw {A} e.
Arguments OutOfFuel {A}.

Definition bind {A B : Type} (r : result A) (k : A -> result B) : result B :=
  match r with
  | Ok a => k a
  | Throw e => Throw e
  | OutOfFuel => OutOfFuel
  end.

Notation "x <- r ;; k" := (bind r (fun x => k))
  (at level 61, r at next level, right associativity).

(** [xs.map(f)] for an [f] that may fail. *)
Fixpoint mapM {A B : Type} (f : A -> result B) (xs : list A) : result (list B) :=
  match xs with
  | [] => Ok []
  | x :: xs' => y <- f x ;; ys <- mapM f xs' ;; Ok (y :: ys)
  end.

(** [xs[i]] followed by a method call: [undefined] has no methods. *)
Definition item (xs : list JS.str) (i : nat) : result JS.str :=
  match nth_error xs i with
  | Some x => Ok x
  | None => Throw TypeError
  end.

(* ================================================================== *)
(** ** Levels and returned values *)

Inductive Level : Type := A1 | A2 | B1 | B2 | C1 | C2.

(** The order A1 < A2 < B1 < B2 < C1 < C2. *)
Definition rank (l : Level) : nat :=
  match l with A1 => 0 | A2 => 1 | B1 => 2 | B2 => 3 | C1 => 4 | C2 => 5 end.

Definition Level_le (l1 l2 : Level) : Prop := rank l1 <= rank l2.

(** The string that names a level. *)
Definition levelName (l : Level) : JS.str :=
  match l with
  | A1 => JS.lit "A1" | A2 => JS.lit "A2"
  | B1 => JS.lit "B1" | B2 => JS.lit "B2"
  | C1 => JS.lit "C1" | C2 => JS.lit "C2"
  end.

(** What a classifier returns: a string, or [undefined] when an array is read
    outside its bounds. *)
Inductive value : Type :=
| VStr (s : JS.str)
| VUndefined.

Definition level (l : Level) : value := VStr (levelName l).

(** String concatenation converts its operand. *)
Definition toStr (v : value) : JS.str :=
  match v with
  | VStr s => s
  | VUndefined => JS.lit "undefined"
  end.

(** An array element as [join] writes it: [undefined] is written as the
    empty string. *)
Definition joined (v : value) : JS.str :=
  match v with
  | VStr s => s
  | VUndefined => []
  end.

(** The greatest of some numbers; [None] is [-Infinity], what [Math.max]
    returns for no number. *)
Fixpoint greatestOf (xs : list nat) : option nat :=
  match xs with
  | [] => None
  | x :: xs' =>
      match greatestOf xs' with
      | None => Some x
      | Some m => Some (Nat.max x m)
      end
  end.

(** The number of arguments every engine passes in one call.  ECMAScript sets
    no limit and each engine has its own: JavaScriptCore a fixed one of
    65536; V8, the engine of Node, and SpiderMonkey are bound by the stack
    and pass more. *)
Definition argumentFloor : N := 65535.

(** The number of arguments the engine at hand passes in one call;
    [moreArguments], what it passes beyond [argumentFloor], is a parameter of
    the development. *)
Definition argumentLimit (moreArguments : N) : N :=
  (argumentFloor + moreArguments)%N.

(** [Math.max(...xs)]: the spread passes one argument for each element, and
    a call with more arguments than the engine passes throws a RangeError. *)
Definition Math_max (moreArguments : N) (xs : list nat) : result (option nat) :=
  if (N.of_nat (List.length xs) <=? argumentLimit moreArguments)%N
  then Ok (greatestOf xs)
  else Throw RangeError.

(** [table[key] || 1] on an object literal with number fields: a key that is
    absent reads [undefined], and [undefined] (like 0) gives way to 1.  The
    keys are results of the classifier; the properties an object literal
    inherits, such as [constructor], are not among them and are left out. *)
Definition getOr1 (table : list (JS.str * nat)) (key : value) : nat :=
  match key with
  | VStr s =>
      match find (fun kv => JS.eqb (fst kv) s) table with
      | Some (_, 0) => 1
      | Some (_, n) => n
      | None => 1
      end
  | VUndefined => 1
  end.

(** [names[i]] on an array literal of strings. *)
Definition at_ (names : list JS.str) (i : option nat) : value :=
  match i with
  | None => VUndefined
  | Some n =>
      match nth_error names n with
      | Some s => VStr s
      | None => VUndefined
      end
  end.

(* ================================================================== *)
(** ** [add_cefr_levels_offline.js] *)

Module Offline.

Definition a1Words : list JS.str := map JS.lit [
    "agree"; "arrive"; "august"; "boat"; "breakfast"; "camera"; "catch"; "duck";
    "enjoy"; "invite"; "love"; "month"; "travel"; "visit"; "weather"; "week"; "wine";
    "kill"; "laugh"; "loud"; "noise"; "smell"; "cloud"; "animal"; "bus"; "cat"; "dog";
    "door"; "friend"; "hear"; "help"; "horse"; "hospital"; "leg"; "open"; "pull";
    "rabbit"; "school"; "see"; "chicken"; "eat"; "food"; "fruit"; "water"; "ask";
    "banana"; "bread"; "cake"; "carrot"; "chocolate"; "always"; "seven"; "start";
    "together"; "wear"; "year"; "home"; "family"; "from"; "green"; "red"; "book";
    "clothes"; "dinner"; "end"; "january"; "december"; "the"; "a"; "an"; "and"; "or";
    "but"; "in"; "on"; "at"; "to"; "for"; "of"; "with"; "by"; "i"; "you"; "he"; "she";
    "it"; "we"; "they"; "my"; "your"; "his"; "her"; "its"; "our"; "their"; "this";
    "that"; "these"; "those"; "here"; "there"; "where"; "when"; "what"; "who"; "how";
    "why"; "yes"; "no"; "not"; "good"; "bad"; "big"; "small"; "new"; "old"; "hot";
    "cold"; "long"; "short"; "like"; "want"; "need"; "have"; "get"; "go"; "come";
    "look"; "drink"; "work"; "time"; "day"
  ]%string.

Definition a2Words : list JS.str := map JS.lit [
    "capital"; "typical"; "adventure"; "approach"; "carefully"; "create"; "project";
    "scare"; "secret"; "shout"; "terrible"; "worse"; "among"; "chart"; "describe";
    "ever"; "fail"; "grade"; "instead"; "library"; "photograph"; "several"; "solve";
    "suddenly"; "suppose"; "understand"; "view"; "appropriate"; "avoid"; "behave";
    "calm"; "concern"; "content"; "expect"; "frequently"; "habit"; "instruct"; "issue";
    "none"; "patient"; "positive"; "punish"; "represent"; "shake"; "spread"; "stroll";
    "village"; "active"; "adult"; "age"; "balance"; "bike"; "choose"; "doctor";
    "during"; "football"; "fun"; "game"; "heart"; "golf"; "increase"; "life"; "often";
    "plenty"; "weight"; "apartment"; "article"; "artist"; "attitude"; "beauty";
    "compare"; "judge"; "magazine"; "material"; "meal"; "method"; "neighbor"; "profit";
    "quality"; "space"; "stair"; "symbol"; "thin"; "community"; "university";
    "celebrate"; "decide"; "disappear"; "else"; "fair"; "flow"; "forward"; "hill";
    "level"; "lone"; "puddle"; "response"; "season"; "solution"; "waste"; "whether";
    "great"; "health"; "recipe"; "restaurant"; "special"; "alive"; "bone"; "bother";
    "captain"; "conclusion"; "doubt"; "explore"; "glad"; "however"; "mention"; "social";
    "speech"; "staff"; "toward"; "wood"; "achieve"; "advise"; "already"; "basic"; "bit";
    "consider"; "destroy"; "entertain"; "extra"; "goal"; "lie"; "meat"; "opinion";
    "real"; "reflect"; "regard"; "serve"; "vegetable"; "war"; "worth"; "about"; "after";
    "again"; "all"; "also"; "different"; "each"; "early"; "every"; "first"; "important";
    "large"; "last"; "late"; "little"; "live"; "make"; "many"; "most"; "much"; "never";
    "next"; "only"; "other"; "own"; "place"; "right"; "same"; "some"; "still"; "such";
    "take"; "than"; "them"; "think"; "through"; "very"; "way"; "well"; "while"; "world";
    "write"; "young"
  ]%string.

Definition b1Words : list JS.str := map JS.lit [
    "alcohol"; "chemical"; "evil"; "experiment"; "laboratory"; "nervous"; "alien";
    "planet"; "report"; "shape"; "command"; "depend"; "medical"; "service"; "benefit";
    "certain"; "chance"; "effect"; "essential"; "focus"; "function"; "grass"; "guard";
    "image"; "immediate"; "primary"; "proud"; "remain"; "rest"; "separate"; "site";
    "tail"; "trouble"; "advertise"; "aware"; "battery"; "black"; "city"; "clean";
    "country"; "develop"; "electric"; "eventually"; "fact"; "glass"; "history";
    "nature"; "people"; "plastic"; "problem"; "street"; "alone"; "professional";
    "appeal"; "assume"; "borrow"; "client"; "downtown"; "dull"; "embarrass"; "fare";
    "former"; "found"; "invest"; "loan"; "practical"; "quarter"; "salary";
    "scholarship"; "temporary"; "treasure"; "urge"; "coach"; "control"; "description";
    "direct"; "exam"; "example"; "limit"; "local"; "magical"; "mail"; "novel";
    "outline"; "poet"; "print"; "scene"; "sheet"; "silly"; "store"; "suffer";
    "technology"; "across"; "breathe"; "characteristic"; "consume"; "excite";
    "extremely"; "fear"; "fortunate"; "happen"; "length"; "mistake"; "observe";
    "opportunity"; "prize"; "race"; "realize"; "respond"; "risk"; "wonder"; "yet";
    "art"; "contain"; "delicious"; "diet"; "accounting"; "injustice"; "international";
    "lawyer"; "policy"
  ]%string.

Definition b2Words : list JS.str := map JS.lit [
    "apart"; "attribute"; "bilingual"; "completely"; "dash"; "disgust"; "fashionable";
    "foreign"; "gulf"; "mirror"; "natural"; "nowadays"; "participant"; "ritual";
    "spoken"; "sport"; "surprised"; "tense"; "totally"; "vague"; "allow"; "announce";
    "beside"; "challenge"; "claim"; "condition"; "contribute"; "difference"; "divide";
    "expert"; "famous"; "force"; "harm"; "lay"; "peace"; "prince"; "protect"; "sense";
    "sudden"; "therefore"; "accept"; "arrange"; "attend"; "chase"; "contrast";
    "encourage"; "familiar"; "grab"; "hang"; "huge"; "necessary"; "pattern"; "propose";
    "purpose"; "release"; "require"; "satisfied"; "single"; "tear"; "theory"; "advance";
    "athlete"; "average"; "behavior"; "behind"; "course"; "lower"; "match"; "member";
    "mental"; "passenger"; "personality"; "poem"; "pole"; "remove"; "safety"; "shoot";
    "sound"; "swim"; "web"; "block"; "bury"; "cheer"; "complex"; "critic"; "direction";
    "event"; "exercise"; "friendship"; "guide"; "lack"; "perform"; "bright"; "actual";
    "amaze"; "charge"; "comfort"; "contact"; "customer"; "deliver"; "earn"; "gate";
    "include"; "manage"; "mystery"; "occur"; "opposite"; "plate"; "receive"; "reward";
    "set"; "steal"; "thief"
  ]%string.

Definition c1Words : list JS.str := map JS.lit [
    "exchange"; "appear"; "base"; "brain"; "career"; "clerk"; "effort"; "enter";
    "excellent"; "hero"; "hurry"; "inform"; "later"; "leave"; "locate"; "nurse";
    "operation"; "pain"; "refuse"; "though"; "various"
  ]%string.

Definition c2Words : list JS.str := map JS.lit [
    "sophisticated"; "unprecedented"; "manifestation"; "contemporary"; "ambiguous"
  ]%string.

Section Classifier.

Variable toLowerCase : JS.str -> JS.str.
Variable moreArguments : N.

(** [getCEFRLevelOffline], lines 22 to 146: the word sets are consulted in
    the order A1 to C2, then the length bands. *)
Definition wordLevel (text : JS.str) : value :=
  if JS.has a1Words text then VStr (JS.lit "A1")
  else if JS.has a2Words text then VStr (JS.lit "A2")
  else if JS.has b1Words text then VStr (JS.lit "B1")
  else if JS.has b2Words text then VStr (JS.lit "B2")
  else if JS.has c1Words text then VStr (JS.lit "C1")
  else if JS.has c2Words text then VStr (JS.lit "C2")
  else
    if (JS.length text <=? 4) && JS.testLowerLetters text then VStr (JS.lit "A1")
    else if JS.length text <=? 6 then VStr (JS.lit "A2")
    else if JS.length text <=? 8 then VStr (JS.lit "B1")
    else if JS.length text <=? 10 then VStr (JS.lit "B2")
    else VStr (JS.lit "C1").

Definition levelValues : list (JS.str * nat) :=
  [ (JS.lit "A1", 1); (JS.lit "A2", 2); (JS.lit "B1", 3);
    (JS.lit "B2", 4); (JS.lit "C1", 5); (JS.lit "C2", 6) ].

Definition levelNames : list JS.str :=
  [ JS.lit ""; JS.lit "A1"; JS.lit "A2"; JS.lit "B1";
    JS.lit "B2"; JS.lit "C1"; JS.lit "C2" ].

(** The words of a phrase, first statement of [analyzePhrase]. *)
Definition phraseWords (phrase : JS.str) : list JS.str :=
  filter (fun word => 0 <? JS.length word)
         (JS.splitWhiteSpace (JS.removePunctuation (toLowerCase phrase))).

(** The body of [analyzePhrase]; [classify] is the call of
    [getCEFRLevelOffline] on a word. *)
Definition analyzePhraseWith (classify : JS.str -> result value)
           (phrase : JS.str) : result value :=
  let words := phraseWords phrase in
  if List.length words =? 0 then Ok (VStr (JS.lit "A1"))
  else
    levels <- mapM classify words ;;
    maxLevel <- Math_max moreArguments (map (getOr1 levelValues) levels) ;;
    Ok (at_ levelNames maxLevel).

(** The two functions call each other; [fuel] bounds the depth of the
    calls. *)
Fixpoint getCEFRLevelOffline (fuel : nat) (text : JS.str) : result value :=
  match fuel with
  | O => OutOfFuel
  | S fuel' =>
      let text := JS.trim (toLowerCase text) in
      if JS.includes text JS.SPACE
      then analyzePhraseWith (getCEFRLevelOffline fuel') text
      else Ok (wordLevel text)
  end.

Definition analyzePhrase (fuel : nat) (phrase : JS.str) : result value :=
  analyzePhraseWith (getCEFRLevelOffline fuel) phrase.

(** One turn of the loop of [processTSVFileOffline], lines 200 to 236: the
    line that is pushed on [processedLines]. *)
Definition processLine (fuel : nat) (entry : JS.str) : result JS.str :=
  let line := JS.replaceTerminator entry in
  if JS.startsWith line JS.HASH || negb (JS.truthy (JS.trim line)) then Ok line
  else
    let columns := JS.split JS.TAB line in
    if 12 <=? List.length columns then
      column3 <- item columns 3 ;;
      let text := JS.trim column3 in
      columns' <-
        (if JS.truthy text then
           cefrLevel <- getCEFRLevelOffline fuel text ;;
           column11 <- item columns 11 ;;
           if JS.truthy (JS.trim column11)
           then Ok (JS.update 11 (column11 ++ JS.SPACE :: toStr cefrLevel) columns)
           else Ok (JS.update 11 (joined cefrLevel) columns)
         else Ok columns) ;;
      Ok (JS.join JS.TAB columns')
    else Ok line.

(** [processTSVFileOffline] from the contents of the input file to the
    contents of the output file. *)
Definition processTSVFileOffline (fuel : nat) (data : JS.str) : result JS.str :=
  let lines := JS.split JS.LF data in
  processedLines <- mapM (processLine fuel) lines ;;
  Ok (JS.join JS.LF processedLines).

End Classifier.

End Offline.

(* ================================================================== *)
(** ** [add_cefr_levels.js] *)

(** A parsed JSON text.  A number is read only for its truthiness, so it is
    kept as the answer to "is it zero"; an object is the list of its own
    properties, the first binding of a key being the one a read finds. *)
#[warnings="-register-all"]
Inductive json : Type :=
| JNull
| JBool (b : bool)
| JNumber (isZero : bool)
| JString (s : JS.str)
| JArray (xs : list json)
| JObject (fields : list (JS.str * json)).

(** A JavaScript value read from a response: [None] is [undefined]. *)
Definition truthyJson (v : option json) : bool :=
  match v with
  | None | Some JNull => false
  | Some (JBool b) => b
  | Some (JNumber isZero) => negb isZero
  | Some (JString s) => JS.truthy s
  | Some (JArray _) | Some (JObject _) => true
  end.

(** [v.key] for the keys the source reads ([word], [level]), on a value that
    is neither [null] nor [undefined]: only an object has such a property. *)
Definition prop (v : option json) (key : JS.str) : option json :=
  match v with
  | Some (JObject fields) =>
      match find (fun kv => JS.eqb (fst kv) key) fields with
      | Some (_, x) => Some x
      | None => None
      end
  | _ => None
  end.

(** How a promise is settled. *)
Inductive settled : Type :=
| Resolved (s : JS.str)
| Rejected (e : exn).

(** How the HTTPS exchange of [queryAPI] ends: the response's 'end' event
    with the body received, the request's 'error' event, or the 5000 ms
    timeout. *)
Inductive exchange : Type :=
| ResponseEnd (data : JS.str)
| RequestError
| SocketTimeout.

Module Api.

Definition a1Words : list JS.str := map JS.lit [
    "agree"; "arrive"; "august"; "boat"; "breakfast"; "camera"; "catch"; "duck";
    "enjoy"; "invite"; "love"; "month"; "travel"; "visit"; "weather"; "week"; "wine";
    "kill"; "laugh"; "loud"; "noise"; "smell"; "cloud"; "animal"; "bus"; "cat"; "dog";
    "door"; "friend"; "hear"; "help"; "horse"; "hospital"; "leg"; "open"; "pull";
    "rabbit"; "school"; "see"; "chicken"; "eat"; "food"; "fruit"; "water"; "ask";
    "banana"; "bread"; "cake"; "carrot"; "chocolate"; "always"; "seven"; "start";
    "together"; "wear"; "year"; "home"; "family"; "from"; "green"; "red"; "book";
    "clothes"; "dinner"; "end"; "january"; "december"; "the"; "a"; "an"; "and"; "or";
    "but"; "in"; "on"; "at"; "to"; "for"; "of"; "with"; "by"; "i"; "you"; "he"; "she";
    "it"; "we"; "they"; "my"; "your"; "his"; "her"; "its"; "our"; "their"; "this";
    "that"; "these"; "those"; "here"; "there"; "where"; "when"; "what"; "who"; "how";
    "why"; "yes"; "no"; "not"; "good"; "bad"; "big"; "small"; "new"; "old"; "hot";
    "cold"; "long"; "short"; "like"; "want"; "need"; "have"; "get"; "go"; "come";
    "look"; "drink"; "work"; "time"; "day"
  ]%string.

Definition a2Words : list JS.str := map JS.lit [
    "capital"; "typical"; "adventure"; "approach"; "carefully"; "create"; "project";
    "scare"; "secret"; "shout"; "terrible"; "worse"; "among"; "chart"; "describe";
    "ever"; "fail"; "grade"; "instead"; "library"; "photograph"; "several"; "solve";
    "suddenly"; "suppose"; "understand"; "view"; "appropriate"; "avoid"; "behave";
    "calm"; "concern"; "content"; "expect"; "frequently"; "habit"; "instruct"; "issue";
    "none"; "patient"; "positive"; "punish"; "represent"; "shake"; "spread"; "stroll";
    "village"; "active"; "adult"; "age"; "balance"; "bike"; "choose"; "doctor";
    "during"; "football"; "fun"; "game"; "heart"; "golf"; "increase"; "life"; "often";
    "plenty"; "weight"; "apartment"; "article"; "artist"; "attitude"; "beauty";
    "compare"; "judge"; "magazine"; "material"; "meal"; "method"; "neighbor"; "profit";
    "quality"; "space"; "stair"; "symbol"; "thin"; "community"; "university";
    "celebrate"; "decide"; "disappear"; "else"; "fair"; "flow"; "forward"; "hill";
    "level"; "lone"; "puddle"; "response"; "season"; "solution"; "waste"; "whether";
    "great"; "health"; "recipe"; "restaurant"; "special"; "alive"; "bone"; "bother";
    "captain"; "conclusion"; "doubt"; "explore"; "glad"; "however"; "mention"; "social";
    "speech"; "staff"; "toward"; "wood"; "achieve"; "advise"; "already"; "basic"; "bit";
    "consider"; "destroy"; "entertain"; "extra"; "goal"; "lie"; "meat"; "opinion";
    "real"; "reflect"; "regard"; "serve"; "vegetable"; "war"; "worth"; "about"; "after";
    "again"; "all"; "also"; "different"; "each"; "early"; "every"; "first"; "important";
    "large"; "last"; "late"; "little"; "live"; "make"; "many"; "most"; "much"; "never";
    "next"; "only"; "other"; "own"; "place"; "right"; "same"; "some"; "still"; "such";
    "take"; "than"; "them"; "think"; "through"; "very"; "way"; "well"; "while"; "world";
    "write"; "young"
  ]%string.

Definition b1Words : list JS.str := map JS.lit [
    "alcohol"; "chemical"; "evil"; "experiment"; "laboratory"; "nervous"; "alien";
    "planet"; "report"; "shape"; "command"; "depend"; "medical"; "service"; "benefit";
    "certain"; "chance"; "effect"; "essential"; "focus"; "function"; "grass"; "guard";
    "image"; "immediate"; "primary"; "proud"; "remain"; "rest"; "separate"; "site";
    "tail"; "trouble"; "advertise"; "aware"; "battery"; "black"; "city"; "clean";
    "country"; "develop"; "electric"; "eventually"; "fact"; "glass"; "history";
    "nature"; "people"; "plastic"; "problem"; "street"; "alone"; "professional";
    "appeal"; "assume"; "borrow"; "client"; "downtown"; "dull"; "embarrass"; "fare";
    "former"; "found"; "invest"; "loan"; "practical"; "quarter"; "salary";
    "scholarship"; "temporary"; "treasure"; "urge"; "coach"; "control"; "description";
    "direct"; "exam"; "example"; "limit"; "local"; "magical"; "mail"; "novel";
    "outline"; "poet"; "print"; "scene"; "sheet"; "silly"; "store"; "suffer";
    "technology"; "across"; "breathe"; "characteristic"; "consume"; "excite";
    "extremely"; "fear"; "fortunate"; "happen"; "length"; "mistake"; "observe";
    "opportunity"; "prize"; "race"; "realize"; "respond"; "risk"; "wonder"; "yet";
    "art"; "contain"; "delicious"; "diet"; "accounting"; "injustice"; "international";
    "lawyer"; "policy"
  ]%string.

Definition b2Words : list JS.str := map JS.lit [
    "apart"; "attribute"; "bilingual"; "completely"; "dash"; "disgust"; "fashionable";
    "foreign"; "gulf"; "mirror"; "natural"; "nowadays"; "participant"; "ritual";
    "spoken"; "sport"; "surprised"; "tense"; "totally"; "vague"; "allow"; "announce";
    "beside"; "challenge"; "claim"; "condition"; "contribute"; "difference"; "divide";
    "expert"; "famous"; "force"; "harm"; "lay"; "peace"; "prince"; "protect"; "sense";
    "sudden"; "therefore"; "accept"; "arrange"; "attend"; "chase"; "contrast";
    "encourage"; "familiar"; "grab"; "hang"; "huge"; "necessary"; "pattern"; "propose";
    "purpose"; "release"; "require"; "satisfied"; "single"; "tear"; "theory"; "advance";
    "athlete"; "average"; "behavior"; "behind"; "course"; "lower"; "match"; "member";
    "mental"; "passenger"; "personality"; "poem"; "pole"; "remove"; "safety"; "shoot";
    "sound"; "swim"; "web"; "block"; "bury"; "cheer"; "complex"; "critic"; "direction";
    "event"; "exercise"; "friendship"; "guide"; "lack"; "perform"; "bright"; "actual";
    "amaze"; "charge"; "comfort"; "contact"; "customer"; "deliver"; "earn"; "gate";
    "include"; "manage"; "mystery"; "occur"; "opposite"; "plate"; "receive"; "reward";
    "set"; "steal"; "thief"
  ]%string.

Definition c1Words : list JS.str := map JS.lit [
    "exchange"; "appear"; "base"; "brain"; "career"; "clerk"; "effort"; "enter";
    "excellent"; "hero"; "hurry"; "inform"; "later"; "leave"; "locate"; "nurse";
    "operation"; "pain"; "refuse"; "though"; "various"
  ]%string.

Definition c2Words : list JS.str := map JS.lit [
    "sophisticated"; "unprecedented"; "manifestation"; "contemporary"; "ambiguous"
  ]%string.

Section Classifier.

Variable toLowerCase : JS.str -> JS.str.
Variable moreArguments : N.
Variable toUpperCase : JS.str -> JS.str.
(** [JSON.parse]; [None] when it throws. *)
Variable JSON_parse : JS.str -> option json.
(** The remote service: the end of the exchange for the word posted. *)
Variable https_request : JS.str -> exchange.

(** [getBasicCEFRLevel], lines 126 to 250. *)
Definition wordLevel (text : JS.str) : value :=
  if JS.has a1Words text then VStr (JS.lit "A1")
  else if JS.has a2Words text then VStr (JS.lit "A2")
  else if JS.has b1Words text then VStr (JS.lit "B1")
  else if JS.has b2Words text then VStr (JS.lit "B2")
  else if JS.has c1Words text then VStr (JS.lit "C1")
  else if JS.has c2Words text then VStr (JS.lit "C2")
  else
    if (JS.length text <=? 4) && JS.testLowerLetters text then VStr (JS.lit "A1")
    else if JS.length text <=? 6 then VStr (JS.lit "A2")
    else if JS.length text <=? 8 then VStr (JS.lit "B1")
    else if JS.length text <=? 10 then VStr (JS.lit "B2")
    else VStr (JS.lit "C1").

Definition levelValues : list (JS.str * nat) :=
  [ (JS.lit "A1", 1); (JS.lit "A2", 2); (JS.lit "B1", 3);
    (JS.lit "B2", 4); (JS.lit "C1", 5); (JS.lit "C2", 6) ].

Definition levelNames : list JS.str :=
  [ JS.lit ""; JS.lit "A1"; JS.lit "A2"; JS.lit "B1";
    JS.lit "B2"; JS.lit "C1"; JS.lit "C2" ].

Definition phraseWords (phrase : JS.str) : list JS.str :=
  filter (fun word => 0 <? JS.length word)
         (JS.splitWhiteSpace (JS.removePunctuation (toLowerCase phrase))).

(** The body of [analyzePhrase]; [classify] is the call of
    [getBasicCEFRLevel] on a word. *)
Definition analyzePhraseWith (classify : JS.str -> result value)
           (phrase : JS.str) : result value :=
  let words := phraseWords phrase in
  if List.length words =? 0 then Ok (VStr (JS.lit "A1"))
  else
    levels <- mapM classify words ;;
    maxLevel <- Math_max moreArguments (map (getOr1 levelValues) levels) ;;
    Ok (at_ levelNames maxLevel).

Fixpoint getBasicCEFRLevel (fuel : nat) (text : JS.str) : result value :=
  match fuel with
  | O => OutOfFuel
  | S fuel' =>
      let text := JS.trim (toLowerCase text) in
      if JS.includes text JS.SPACE
      then analyzePhraseWith (getBasicCEFRLevel fuel') text
      else Ok (wordLevel text)
  end.

Definition analyzePhrase (fuel : nat) (phrase : JS.str) : result value :=
  analyzePhraseWith (getBasicCEFRLevel fuel) phrase.

(** [level.toUpperCase()]: only a string has the method. *)
Definition upperCased (v : option json) : settled :=
  match v with
  | Some (JString s) => Resolved (toUpperCase s)
  | _ => Rejected TypeError
  end.

(** [queryAPI]: the promise it returns, once settled. *)
Definition queryAPI (text : JS.str) : settled :=
  match https_request (toLowerCase text) with
  | ResponseEnd data =>
      match JSON_parse data with
      | None => Rejected SyntaxError
      | Some parsed =>
          let response := Some parsed in
          if truthyJson response
             && truthyJson (prop response (JS.lit "word"))
             && truthyJson (prop (prop response (JS.lit "word")) (JS.lit "level"))
          then upperCased (prop (prop response (JS.lit "word")) (JS.lit "level"))
          else if truthyJson response
                  && truthyJson (prop response (JS.lit "level"))
          then upperCased (prop response (JS.lit "level"))
          else Resolved (JS.lit "UNKNOWN")
      end
  | RequestError => Rejected NetworkError
  | SocketTimeout => Rejected Timeout
  end.

(** The [try] blocks of [getCEFRLevel]: the value the function returns from
    inside the block, if it does; a rejection is caught and only logged. *)
Definition tryAPI (text : JS.str) : option JS.str :=
  match queryAPI text with
  | Resolved apiResult =>
      if JS.truthy apiResult && negb (JS.eqb apiResult (JS.lit "UNKNOWN"))
      then Some apiResult
      else None
  | Rejected _ => None
  end.

Definition getCEFRLevel (fuel : nat) (text : JS.str) : result value :=
  let text := JS.trim text in
  if JS.includes text JS.SPACE then
    match tryAPI text with
    | Some apiResult => Ok (VStr apiResult)
    | None => analyzePhrase fuel text
    end
  else
    match tryAPI text with
    | Some apiResult => Ok (VStr apiResult)
    | None => getBasicCEFRLevel fuel text
    end.

(** One turn of the loop of [processTSVFile], lines 304 to 343: the line
    that is pushed on [processedLines].  The pause of 100 ms after a record
    changes no value and is left out. *)
Definition processLine (fuel : nat) (entry : JS.str) : result JS.str :=
  let line := JS.replaceTerminator entry in
  if JS.startsWith line JS.HASH || negb (JS.truthy (JS.trim line)) then Ok line
  else
    let columns := JS.split JS.TAB line in
    if 12 <=? List.length columns then
      column3 <- item columns 3 ;;
      let word := JS.trim column3 in
      columns' <-
        (if JS.truthy word then
           cefrLevel <- getCEFRLevel fuel word ;;
           column11 <- item columns 11 ;;
           if JS.truthy (JS.trim column11)
           then Ok (JS.update 11 (column11 ++ JS.SPACE :: toStr cefrLevel) columns)
           else Ok (JS.update 11 (joined cefrLevel) columns)
         else Ok columns) ;;
      Ok (JS.join JS.TAB columns')
    else Ok line.

(** [processTSVFile] from the contents of the input file to the contents of
    the output file. *)
Definition processTSVFile (fuel : nat) (data : JS.str) : result JS.str :=
  let lines := JS.split JS.LF data in
  processedLines <- mapM (processLine fuel) lines ;;
  Ok (JS.join JS.LF processedLines).

End Classifier.

End Api.

(* ================================================================== *)
(** ** Vocabulary of the statements *)

(** The word set of a level in [add_cefr_levels_offline.js]. *)
Definition tier (l : Level) : list JS.str :=
  match l with
  | A1 => Offline.a1Words | A2 => Offline.a2Words
  | B1 => Offline.b1Words | B2 => Offline.b2Words
  | C1 => Offline.c1Words | C2 => Offline.c2Words
  end.

(** A word that no word set holds. *)
Definition unlisted (w : JS.str) : Prop := forall l, ~ In w (tier l).

(** A word made of lowercase Latin letters, at least one: the words
    [/^[a-z]+$/] accepts. *)
Definition lowercaseLatin (w : JS.str) : Prop :=
  w <> [] /\ Forall (fun c => (97 <= c <= 122)%N) w.

(** A line made of white space only; the empty line is one. *)
Definition blank (line : JS.str) : Prop :=
  Forall (fun c => JS.isWhiteSpace c = true) line.

(** [m] is the greatest of [levels]. *)
Definition greatest (m : Level) (levels : list Level) : Prop :=
  In m levels /\ Forall (fun l => Level_le l m) levels.

(** A line of a file, from the text of its fields. *)
Definition fields (xs : list string) : JS.str := JS.join JS.TAB (map JS.lit xs).


(** The first line of a CRLF file, as [split('\n')] leaves it: the record
    ends with the level field "tag" and the carriage return. *)
Definition crLine : JS.str :=
  fields ["w"; "x"; "y"; "cat"; "4"; "5"; "6"; "7"; "8"; "9"; "10"; "tag"]%string
    ++ [JS.CR].

(** A CRLF file of two lines: that record and a comment. *)
Definition crlfFile : JS.str :=
  crLine ++ JS.LF :: JS.lit "#end" ++ [JS.CR; JS.LF].

(** What the annotator writes for it: the level after the carriage return. *)
Definition crlfFileOutput : JS.str :=
  fields ["w"; "x"; "y"; "cat"; "4"; "5"; "6"; "7"; "8"; "9"; "10"; "tag"]%string
    ++ [JS.CR] ++ JS.lit " A1"
    ++ JS.LF :: JS.lit "#end" ++ [JS.CR; JS.LF].

(** A parsed response that carries no level string: neither [word.level] nor
    [level] is a string with something in it. *)
Definition noLevelString (response : json) : Prop :=
  (forall s, prop (prop (Some response) (JS.lit "word")) (JS.lit "level")
             = Some (JString s) -> s = [])
  /\ (forall s, prop (Some response) (JS.lit "level") = Some (JString s) -> s = []).

(** The remote lookup fails: the timeout fires, the request errors, the body
    does not parse, or the parsed response carries no level string. *)
Definition remoteFailure (JSON_parse : JS.str -> option json) (e : exchange) : Prop :=
  e = SocketTimeout
  \/ e = RequestError
  \/ exists data,
      e = ResponseEnd data
      /\ (JSON_parse data = None
          \/ exists response, JSON_parse data = Some response
                              /\ noLevelString response).

(** A record with the word "cat" and the level field "old". *)
Definition catLine : JS.str :=
  fields ["w"; "x"; "y"; "cat"; "4"; "5"; "6"; "7"; "8"; "9"; "10"; "old"]%string.

(** A record with a phrase and an empty level field. *)
Definition beautifulDayLine : JS.str :=
  fields ["w"; "x"; "y"; "This is a beautiful day";
          "4"; "5"; "6"; "7"; "8"; "9"; "10"; ""]%string.

(** A record with text to classify: no comment, at least 12 fields, and a
    fourth field that is not blank. *)
Definition textRecord (line : JS.str) : Prop :=
  JS.startsWith line JS.HASH = false
  /\ 12 <= List.length (JS.split JS.TAB line)
  /\ exists column3, nth_error (JS.split JS.TAB line) 3 = Some column3
                     /\ JS.trim column3 <> [].

(** A file of three lines without a record with text: a comment, an empty
    line and a line of two fields. *)
Definition plainFile : JS.str :=
  JS.lit "#separator:tab" ++ JS.LF :: JS.LF :: fields ["a"; "b c"]%string.

(** A file of two lines: the record [catLine] and a comment. *)
Definition catFile : JS.str := catLine ++ JS.LF :: JS.lit "#end".

(** The greater of two levels. *)
Definition maxLevel (l1 l2 : Level) : Level :=
  if rank l1 <=? rank l2 then l2 else l1.

(** The level string a parsed response carries, as [queryAPI] reads it:
    [word.level] when it is truthy, else [level]. *)
Definition carriesLevel (response : json) (s : JS.str) : Prop :=
  s <> []
  /\ (prop (prop (Some response) (JS.lit "word")) (JS.lit "level") = Some (JString s)
      \/ (truthyJson (prop (prop (Some response) (JS.lit "word")) (JS.lit "level"))
          = false
          /\ prop (Some response) (JS.lit "level") = Some (JString s))).

(** A response with the nested level "c1" and the top-level level "a1". *)
Definition nestedResponse : json :=
  JObject [ (JS.lit "word", JObject [ (JS.lit "level", JString (JS.lit "c1")) ]);
            (JS.lit "level", JString (JS.lit "a1")) ].

(** A response whose nested level is a number, beside a top-level level. *)
Definition numberResponse : json :=
  JObject [ (JS.lit "word", JObject [ (JS.lit "level", JNumber false) ]);
            (JS.lit "level", JString (JS.lit "B2")) ].

(** [toUpperCase] on ASCII code units, for the closed examples. *)
Definition asciiUpper (c : N) : N :=
  if ((97 <=? c) && (c <=? 122))%N then (c - 32)%N else c.

Definition asciiToUpperCase (s : JS.str) : JS.str := map asciiUpper s.

(** A response whose level is the string "unknown". *)
Definition unknownResponse : json :=
  JObject [ (JS.lit "level", JString (JS.lit "unknown")) ].

(** So many words that [Math.max] takes them all as arguments. *)
Definition withinLimit (more : N) (words : list JS.str) : Prop :=
  (N.of_nat (List.length words) <= argumentLimit more)%N.

(** A text whose words, once it is lower-cased and trimmed, are within the
    limit. *)
Definition textFits (toLowerCase : JS.str -> JS.str) (more : N)
           (text : JS.str) : Prop :=
  withinLimit more (Offline.phraseWords toLowerCase (JS.trim (toLowerCase text))).



(** An engine that passes 125000 arguments, about what Node passes with its
    default stack. *)
Definition nodeMore : N := 59465.

(** A phrase of 130000 words. *)
Definition longPhrase : JS.str :=
  List.concat (repeat (JS.lit "a ") (N.to_nat 129999)) ++ JS.lit "a".

(** A file of one record with that phrase as its text. *)
Definition longFile : JS.str :=
  JS.join JS.TAB
    ([JS.lit "w"; JS.lit "x"; JS.lit "y"; longPhrase]
       ++ map JS.lit ["4"; "5"; "6"; "7"; "8"; "9"; "10"; ""]%string).

(* ================================================================== *)
(** ** Facts about the string operations *)

Section StringFacts.

Lemma eqb_eq (a b : JS.str) : JS.eqb a b = true <-> a = b.
Proof.
  revert b; induction a as [|x a IH]; intros [|y b]; simpl;
    try (split; [discriminate | congruence]); try tauto.
  rewrite andb_true_iff, N.eqb_eq, IH.
  split; [intros [-> ->]; reflexivity | intros H; inversion H; auto].
Qed.

Lemma eqb_refl (a : JS.str) : JS.eqb a a = true.
Proof. apply eqb_eq; reflexivity. Qed.

Lemma has_In (set : list JS.str) (x : JS.str) :
  JS.has set x = true <-> In x set.
Proof.
  unfold JS.has; rewrite existsb_exists; split.
  - intros (y & Hy & E); apply eqb_eq in E; subst; assumption.
  - intros H; exists x; split; [assumption | apply eqb_refl].
Qed.

Lemma has_false (set : list JS.str) (x : JS.str) :
  JS.has set x = false <-> ~ In x set.
Proof.
  rewrite <- has_In; destruct (JS.has set x); split; congruence.
Qed.

Lemma includes_In (s : JS.str) (c : N) : JS.includes s c = true <-> In c s.
Proof.
  unfold JS.includes; rewrite existsb_exists; split.
  - intros (y & Hy & E); apply N.eqb_eq in E; subst; assumption.
  - intros H; exists c; split; [assumption | apply N.eqb_refl].
Qed.

Lemma includes_false (s : JS.str) (c : N) :
  JS.includes s c = false <-> ~ In c s.
Proof.
  rewrite <- includes_In; destruct (JS.includes s c); split; congruence.
Qed.

(** *** trim *)

Lemma trimStart_nil (s : JS.str) :
  JS.trimStart s = [] <-> forallb JS.isWhiteSpace s = true.
Proof.
  induction s as [|c s IH]; simpl; [tauto|].
  destruct (JS.isWhiteSpace c); simpl; [exact IH | split; discriminate].
Qed.

Lemma trimStart_id (s : JS.str) :
  forallb (fun c => negb (JS.isWhiteSpace c)) s = true -> JS.trimStart s = s.
Proof.
  destruct s as [|c s]; simpl; [reflexivity|].
  destruct (JS.isWhiteSpace c); simpl; [discriminate | reflexivity].
Qed.

Lemma trimStart_suffix (s : JS.str) :
  exists p, s = p ++ JS.trimStart s /\ forallb JS.isWhiteSpace p = true.
Proof.
  induction s as [|c s (p & E & Hp)]; simpl.
  - exists []; auto.
  - destruct (JS.isWhiteSpace c) eqn:W.
    + exists (c :: p); simpl; rewrite W, Hp; split; [congruence | reflexivity].
    + exists []; auto.
Qed.

Lemma forallb_rev {A} (f : A -> bool) (l : list A) :
  forallb f (rev l) = forallb f l.
Proof.
  induction l as [|a l IH]; simpl; [reflexivity|].
  rewrite forallb_app, IH; simpl; rewrite andb_true_r; apply andb_comm.
Qed.

Lemma trimEnd_nil (s : JS.str) :
  JS.trimEnd s = [] <-> forallb JS.isWhiteSpace s = true.
Proof.
  unfold JS.trimEnd; rewrite <- (forallb_rev _ s), <- trimStart_nil.
  split; intros H.
  - apply (f_equal (@rev N)) in H; rewrite rev_involutive in H; exact H.
  - rewrite H; reflexivity.
Qed.

(** A string trims to the empty string exactly when it is made of white
    space only. *)
Lemma trim_nil (s : JS.str) :
  JS.trim s = [] <-> forallb JS.isWhiteSpace s = true.
Proof.
  unfold JS.trim; rewrite trimEnd_nil.
  destruct (trimStart_suffix s) as (p & E & Hp).
  split; intros H.
  - rewrite E, forallb_app, Hp, H; reflexivity.
  - rewrite E, forallb_app in H; apply andb_true_iff in H; tauto.
Qed.

Lemma trim_id (s : JS.str) :
  forallb (fun c => negb (JS.isWhiteSpace c)) s = true -> JS.trim s = s.
Proof.
  intros H; unfold JS.trim, JS.trimEnd.
  rewrite (trimStart_id _ H), trimStart_id, rev_involutive; [reflexivity|].
  rewrite forallb_rev; exact H.
Qed.

Lemma truthy_false (s : JS.str) : JS.truthy s = false <-> s = [].
Proof. destruct s; simpl; split; congruence. Qed.

Lemma truthy_true (s : JS.str) : JS.truthy s = true <-> s <> [].
Proof. destruct s; simpl; split; congruence. Qed.

(** *** split and join *)

Lemma split_not_nil (sep : N) (s : JS.str) : JS.split sep s <> [].
Proof.
  induction s as [|c s IH]; simpl; [discriminate|].
  destruct (N.eqb c sep); [discriminate|].
  destruct (JS.split sep s); discriminate.
Qed.

Lemma join_split (sep : N) (s : JS.str) : JS.join sep (JS.split sep s) = s.
Proof.
  induction s as [|c s IH]; simpl; [reflexivity|].
  destruct (N.eqb c sep) eqn:E.
  - apply N.eqb_eq in E; subst c.
    pose proof (split_not_nil sep s) as NN.
    destruct (JS.split sep s) as [|w ws]; [congruence|].
    simpl; simpl in IH; rewrite IH; reflexivity.
  - pose proof (split_not_nil sep s) as NN.
    destruct (JS.split sep s) as [|w ws]; [congruence|].
    destruct ws as [|w' ws]; simpl in *; rewrite <- IH; reflexivity.
Qed.

Lemma split_no_sep (sep : N) (s : JS.str) :
  Forall (fun f => ~ In sep f) (JS.split sep s).
Proof.
  induction s as [|c s IH]; simpl.
  - constructor; [intros [] | constructor].
  - destruct (N.eqb c sep) eqn:E.
    + constructor; [intros [] | assumption].
    + apply N.eqb_neq in E.
      destruct (JS.split sep s) as [|w ws].
      * constructor; [simpl; intuition congruence | constructor].
      * inversion IH; subst; constructor; [simpl; intuition congruence | assumption].
Qed.

Lemma split_field (sep : N) (f : JS.str) :
  ~ In sep f -> JS.split sep f = [f].
Proof.
  induction f as [|c f IH]; simpl; intros H; [reflexivity|].
  destruct (N.eqb c sep) eqn:E.
  - apply N.eqb_eq in E; subst; tauto.
  - rewrite IH by tauto; reflexivity.
Qed.

Lemma split_app (sep : N) (f rest : JS.str) :
  ~ In sep f ->
  JS.split sep (f ++ sep :: rest) = f :: JS.split sep rest.
Proof.
  induction f as [|c f IH]; simpl; intros H.
  - rewrite N.eqb_refl; reflexivity.
  - destruct (N.eqb c sep) eqn:E.
    + apply N.eqb_eq in E; subst; tauto.
    + rewrite IH by tauto; reflexivity.
Qed.

(** Splitting what was joined gives the fields back, when no field holds
    the separator. *)
Lemma split_join (sep : N) (xs : list JS.str) :
  xs <> [] -> Forall (fun f => ~ In sep f) xs ->
  JS.split sep (JS.join sep xs) = xs.
Proof.
  induction xs as [|x xs IH]; intros NN HF; [congruence|].
  inversion HF as [|? ? Hx Hxs]; subst.
  destruct xs as [|y ys].
  - simpl; apply split_field; assumption.
  - change (JS.join sep (x :: y :: ys)) with (x ++ sep :: JS.join sep (y :: ys)).
    rewrite split_app by assumption.
    rewrite IH; [reflexivity | discriminate | assumption].
Qed.

(** The code units of a field are code units of the line. *)
Lemma split_incl (sep : N) (s f : JS.str) (c : N) :
  In f (JS.split sep s) -> In c f -> In c s.
Proof.
  revert f; induction s as [|x s IH]; simpl; intros f Hf Hc.
  - destruct Hf as [<-|[]]; destruct Hc.
  - destruct (N.eqb x sep).
    + destruct Hf as [<-|Hf]; [destruct Hc | right; eapply IH; eauto].
    + destruct (JS.split sep s) as [|w ws].
      * destruct Hf as [<-|[]]; destruct Hc as [<-|[]]; auto.
      * destruct Hf as [<-|Hf].
        -- destruct Hc as [<-|Hc]; [auto | right; apply (IH w); simpl; auto].
        -- right; apply (IH f); simpl; auto.
Qed.

End StringFacts.

Section MoreStringFacts.

(** Every piece of [split(/\s+/)] is free of white space and made of code
    units of the string. *)
Lemma splitRuns_pieces (inRun : bool) (s : JS.str) :
  Forall (fun w => forallb (fun c => negb (JS.isWhiteSpace c)) w = true
                   /\ forall c, In c w -> In c s)
         (JS.splitRuns inRun s).
Proof.
  revert inRun; induction s as [|x s IH]; intros inRun; simpl.
  - constructor; [split; [reflexivity | intros c []] | constructor].
  - assert (W : forall b,
               Forall (fun w => forallb (fun c => negb (JS.isWhiteSpace c)) w = true
                                /\ forall c, In c w -> In c (x :: s))
                      (JS.splitRuns b s)).
    { intros b; eapply Forall_impl; [|apply IH].
      simpl; intros w [H1 H2]; split; [assumption | intros c Hc; right; auto]. }
    destruct (JS.isWhiteSpace x) eqn:E.
    + destruct inRun; [apply W|].
      constructor; [split; [reflexivity | intros c []] | apply W].
    + specialize (W false).
      destruct (JS.splitRuns false s) as [|w ws].
      * constructor; [|constructor].
        simpl; rewrite E; split; [reflexivity | intros c [<-|[]]; left; reflexivity].
      * inversion W as [|? ? [H1 H2] Hws]; subst.
        constructor; [|assumption].
        simpl; rewrite E, H1; split; [reflexivity|].
        intros c [<-|Hc]; [left; reflexivity | exact (H2 c Hc)].
Qed.

(** A line without LF has no terminator to lose. *)
Lemma replaceTerminator_id (s : JS.str) :
  ~ In JS.LF s -> JS.replaceTerminator s = s.
Proof.
  induction s as [|c s IH]; simpl; intros H; [reflexivity|].
  assert (E1 : JS.eqb s [JS.LF] = false).
  { destruct (JS.eqb s [JS.LF]) eqn:E; [|reflexivity].
    apply eqb_eq in E; subst; simpl in H; tauto. }
  assert (E2 : N.eqb c JS.LF = false).
  { apply N.eqb_neq; intros ->; tauto. }
  rewrite E1, E2, andb_false_r; simpl.
  rewrite IH by tauto; reflexivity.
Qed.

Lemma update_length (i : nat) (v : JS.str) (xs : list JS.str) :
  List.length (JS.update i v xs) = List.length xs.
Proof.
  revert i; induction xs as [|x xs IH]; intros [|i]; simpl; auto.
Qed.

Lemma update_same (i : nat) (v : JS.str) (xs : list JS.str) :
  i < List.length xs -> nth_error (JS.update i v xs) i = Some v.
Proof.
  revert i; induction xs as [|x xs IH]; intros [|i]; simpl; intros H;
    try lia; [reflexivity | apply IH; lia].
Qed.

Lemma update_other (i j : nat) (v : JS.str) (xs : list JS.str) :
  i <> j -> nth_error (JS.update i v xs) j = nth_error xs j.
Proof.
  revert i j; induction xs as [|x xs IH]; intros [|i] [|j] H; simpl;
    try reflexivity; try congruence.
  apply IH; congruence.
Qed.

Lemma update_Forall (P : JS.str -> Prop) (i : nat) (v : JS.str) (xs : list JS.str) :
  P v -> Forall P xs -> Forall P (JS.update i v xs).
Proof.
  intros Hv; revert i; induction xs as [|x xs IH]; intros i HF; simpl.
  - destruct i; constructor.
  - inversion HF; subst; destruct i; constructor; auto.
Qed.

Lemma update_not_nil (i : nat) (v : JS.str) (xs : list JS.str) :
  xs <> [] -> JS.update i v xs <> [].
Proof. destruct xs, i; simpl; congruence. Qed.

Ltac to_N_bounds H :=
  repeat (apply orb_true_iff in H; destruct H as [H|H]);
  repeat (let H' := fresh in apply andb_true_iff in H; destruct H as [H H']);
  repeat match goal with
         | X : (_ <=? _)%N = true |- _ => apply N.leb_le in X
         | X : (_ =? _)%N = true |- _ => apply N.eqb_eq in X
         end.

Lemma wordChar_range (c : N) : JS.isWordChar c = true -> (48 <= c <= 122)%N.
Proof. unfold JS.isWordChar; intros H; to_N_bounds H; lia. Qed.

Lemma wordChar_ascii (c : N) : JS.isWordChar c = true -> JS.isAscii c = true.
Proof.
  intros H; apply wordChar_range in H; apply N.ltb_lt; lia.
Qed.

Lemma range_not_space (d : N) : (48 <= d <= 122)%N -> JS.isWhiteSpace d = false.
Proof.
  intros Hd; unfold JS.isWhiteSpace.
  repeat match goal with
         | |- context [(?a <=? ?b)%N] =>
             let E := fresh in destruct (N.leb_spec a b) as [E|E]
         | |- context [(?a =? ?b)%N] =>
             let E := fresh in destruct (N.eqb_spec a b) as [E|E]
         end; simpl; try reflexivity; lia.
Qed.

Lemma wordChar_lower_not_space (c : N) :
  JS.isWordChar c = true -> JS.isWhiteSpace (JS.asciiLower c) = false.
Proof.
  intros H; apply wordChar_range in H; apply range_not_space.
  unfold JS.asciiLower.
  destruct ((65 <=? c) && (c <=? 90))%N eqn:E; [|lia].
  apply andb_true_iff in E; destruct E as [E1 E2].
  apply N.leb_le in E1, E2; lia.
Qed.

End MoreStringFacts.

(* ================================================================== *)
(** ** The offline classifier *)

Section OfflineClassifier.

Variable toLowerCase : JS.str -> JS.str.
Variable more : N.

Local Abbreviation getCEFRLevelOffline := (Offline.getCEFRLevelOffline toLowerCase more).
Local Abbreviation analyzePhrase := (Offline.analyzePhrase toLowerCase more).
Local Abbreviation phraseWords := (Offline.phraseWords toLowerCase).

Lemma wordLevel_level (text : JS.str) :
  exists l, Offline.wordLevel text = level l.
Proof.
  unfold Offline.wordLevel.
  repeat match goal with
         | |- context [if ?b then _ else _] => destruct b
         end;
    first [ exists A1; reflexivity | exists A2; reflexivity
          | exists B1; reflexivity | exists B2; reflexivity
          | exists C1; reflexivity | exists C2; reflexivity ].
Qed.

(** A text without a space, once lower-cased and trimmed, is looked up as
    one word. *)
Lemma getCEFRLevelOffline_word (fuel : nat) (text : JS.str) :
  JS.includes (JS.trim (toLowerCase text)) JS.SPACE = false ->
  getCEFRLevelOffline (S fuel) text
  = Ok (Offline.wordLevel (JS.trim (toLowerCase text))).
Proof. intros H; simpl; rewrite H; reflexivity. Qed.

Lemma getCEFRLevelOffline_phrase (fuel : nat) (text : JS.str) :
  JS.includes (JS.trim (toLowerCase text)) JS.SPACE = true ->
  getCEFRLevelOffline (S fuel) text
  = analyzePhrase fuel (JS.trim (toLowerCase text)).
Proof. intros H; simpl; rewrite H; reflexivity. Qed.

(** The words of a phrase are not empty and made of [\w] code units. *)
Lemma phraseWords_wordChars (phrase : JS.str) :
  Forall (fun w => w <> [] /\ forallb JS.isWordChar w = true)
         (phraseWords phrase).
Proof.
  unfold Offline.phraseWords, JS.splitWhiteSpace.
  apply Forall_forall; intros w Hw.
  apply filter_In in Hw; destruct Hw as [Hin Hlen].
  pose proof (splitRuns_pieces false
                (JS.removePunctuation (toLowerCase phrase))) as P.
  rewrite Forall_forall in P; destruct (P w Hin) as [NW Sub].
  split.
  - destruct w; [discriminate Hlen | discriminate].
  - apply forallb_forall; intros c Hc.
    rewrite forallb_forall in NW; specialize (NW c Hc).
    specialize (Sub c Hc); unfold JS.removePunctuation in Sub.
    apply filter_In in Sub; destruct Sub as [_ K].
    destruct (JS.isWhiteSpace c); [discriminate NW|].
    rewrite orb_false_r in K; exact K.
Qed.

Lemma level_value (l : Level) : getOr1 Offline.levelValues (level l) = S (rank l).
Proof. destruct l; reflexivity. Qed.

Lemma level_at (l : Level) : at_ Offline.levelNames (Some (S (rank l))) = level l.
Proof. destruct l; reflexivity. Qed.

Lemma greatestOf_greatest (levels : list Level) :
  levels <> [] ->
  exists m, greatest m levels
            /\ greatestOf (map (fun l => S (rank l)) levels) = Some (S (rank m)).
Proof.
  unfold greatest, Level_le.
  induction levels as [|l ls IH]; intros NN; [congruence|].
  destruct ls as [|l' ls'].
  - exists l; simpl; repeat split; auto.
  - destruct IH as (m & [Hin Hall] & Hm); [discriminate|].
    change (greatestOf (map (fun l => S (rank l)) (l :: l' :: ls')))
      with (match greatestOf (map (fun l => S (rank l)) (l' :: ls')) with
            | None => Some (S (rank l))
            | Some k => Some (Nat.max (S (rank l)) k)
            end).
    rewrite Hm.
    destruct (le_lt_dec (rank l) (rank m)) as [L|L].
    + exists m; repeat split.
      * right; exact Hin.
      * constructor; assumption.
      * f_equal; lia.
    + exists l; repeat split.
      * left; reflexivity.
      * constructor; [lia|].
        eapply Forall_impl; [|exact Hall]; simpl; intros; lia.
      * f_equal; lia.
Qed.

Hypothesis lower_ascii : JS.LowerCaseOnAscii toLowerCase.

(** A word of a phrase is left alone by [trim] and holds no space. *)
Lemma word_single (w : JS.str) :
  forallb JS.isWordChar w = true ->
  JS.trim (toLowerCase w) = map JS.asciiLower w
  /\ JS.includes (JS.trim (toLowerCase w)) JS.SPACE = false.
Proof.
  intros H.
  assert (A : forallb JS.isAscii w = true).
  { apply forallb_forall; intros c Hc; apply wordChar_ascii.
    rewrite forallb_forall in H; auto. }
  rewrite (lower_ascii _ A).
  assert (NS : forallb (fun c => negb (JS.isWhiteSpace c)) (map JS.asciiLower w) = true).
  { apply forallb_forall; intros c Hc.
    apply in_map_iff in Hc; destruct Hc as (d & <- & Hd).
    rewrite wordChar_lower_not_space; [reflexivity|].
    rewrite forallb_forall in H; auto. }
  rewrite (trim_id _ NS); split; [reflexivity|].
  apply includes_false; intros Hin.
  rewrite forallb_forall in NS; specialize (NS _ Hin); discriminate NS.
Qed.

Lemma mapM_words (fuel : nat) (words : list JS.str) :
  Forall (fun w => w <> [] /\ forallb JS.isWordChar w = true) words ->
  exists levels,
    Forall2 (fun w l =>
               JS.includes (JS.trim (toLowerCase w)) JS.SPACE = false
               /\ getCEFRLevelOffline (S fuel) w = Ok (level l))
            words levels
    /\ mapM (getCEFRLevelOffline (S fuel)) words = Ok (map level levels).
Proof.
  induction 1 as [|w ws [_ Hw] _ (levels & F & M)].
  - exists []; split; [constructor | reflexivity].
  - destruct (word_single _ Hw) as [_ NS].
    destruct (wordLevel_level (JS.trim (toLowerCase w))) as [l Hl].
    exists (l :: levels); split.
    + constructor; [|exact F].
      split; [exact NS|].
      rewrite getCEFRLevelOffline_word by exact NS; rewrite Hl; reflexivity.
    + change (mapM (getCEFRLevelOffline (S fuel)) (w :: ws))
        with (y <- getCEFRLevelOffline (S fuel) w ;;
              ys <- mapM (getCEFRLevelOffline (S fuel)) ws ;; Ok (y :: ys)).
      rewrite getCEFRLevelOffline_word by exact NS.
      rewrite Hl, M; reflexivity.
Qed.

(** A word of a phrase is classified as one word: the word sets, then the
    length bands, on the word itself. *)
Lemma word_run (fuel : nat) (w : JS.str) :
  forallb JS.isWordChar w = true ->
  getCEFRLevelOffline (S fuel) w = Ok (Offline.wordLevel (map JS.asciiLower w)).
Proof.
  intros H; destruct (word_single _ H) as [E NS].
  rewrite getCEFRLevelOffline_word by exact NS; rewrite E; reflexivity.
Qed.

Lemma analyzePhrase_no_words (fuel : nat) (phrase : JS.str) :
  phraseWords phrase = [] -> analyzePhrase fuel phrase = Ok (level A1).
Proof.
  intros E; unfold Offline.analyzePhrase, Offline.analyzePhraseWith.
  rewrite E; reflexivity.
Qed.

Lemma Math_max_within (xs : list nat) :
  (N.of_nat (List.length xs) <= argumentLimit more)%N ->
  Math_max more xs = Ok (greatestOf xs).
Proof.
  intros H; unfold Math_max.
  destruct (N.leb_spec (N.of_nat (List.length xs)) (argumentLimit more));
    [reflexivity | lia].
Qed.

Lemma Math_max_beyond (xs : list nat) :
  (argumentLimit more < N.of_nat (List.length xs))%N ->
  Math_max more xs = Throw RangeError.
Proof.
  intros H; unfold Math_max.
  destruct (N.leb_spec (N.of_nat (List.length xs)) (argumentLimit more));
    [lia | reflexivity].
Qed.

Lemma Forall2_length_eq {A B : Type} (R : A -> B -> Prop)
      (xs : list A) (ys : list B) :
  Forall2 R xs ys -> List.length xs = List.length ys.
Proof. induction 1; simpl; congruence. Qed.

Lemma analyzePhrase_words (fuel : nat) (phrase : JS.str) :
  phraseWords phrase <> [] ->
  withinLimit more (phraseWords phrase) ->
  exists levels m,
    Forall2 (fun w l =>
               JS.includes (JS.trim (toLowerCase w)) JS.SPACE = false
               /\ getCEFRLevelOffline (S fuel) w = Ok (level l))
            (phraseWords phrase) levels
    /\ greatest m levels
    /\ analyzePhrase (S fuel) phrase = Ok (level m).
Proof.
  intros NE WL.
  destruct (mapM_words fuel _ (phraseWords_wordChars phrase))
    as (levels & F & M).
  assert (NL : levels <> []).
  { intros ->; inversion F as [E|]; congruence. }
  destruct (greatestOf_greatest _ NL) as (m & G & Hm).
  exists levels, m; repeat split; try assumption; try apply G.
  unfold Offline.analyzePhrase, Offline.analyzePhraseWith.
  pose proof (Forall2_length_eq _ _ _ F) as Len.
  unfold withinLimit in WL.
  destruct (phraseWords phrase) as [|w ws] eqn:E; [congruence|].
  cbn [List.length Nat.eqb]; rewrite M; cbn [bind].
  rewrite map_map.
  rewrite (map_ext _ (fun l => S (rank l)) level_value).
  rewrite Math_max_within by (rewrite length_map, <- Len; exact WL).
  cbn [bind]; rewrite Hm, level_at; reflexivity.
Qed.

(** With more words than the engine passes as arguments, [Math.max] throws
    and so does [analyzePhrase]. *)
Lemma analyzePhrase_beyond (fuel : nat) (phrase : JS.str) :
  ~ withinLimit more (phraseWords phrase) ->
  analyzePhrase (S fuel) phrase = Throw RangeError.
Proof.
  intros WL; unfold withinLimit in WL.
  destruct (mapM_words fuel _ (phraseWords_wordChars phrase))
    as (levels & F & M).
  pose proof (Forall2_length_eq _ _ _ F) as Len.
  unfold Offline.analyzePhrase, Offline.analyzePhraseWith.
  destruct (phraseWords phrase) as [|w ws] eqn:E.
  - exfalso; apply WL; unfold argumentLimit, argumentFloor; simpl; lia.
  - cbn [List.length Nat.eqb]; rewrite M; cbn [bind].
    rewrite Math_max_beyond; [reflexivity|].
    rewrite !length_map, <- Len; lia.
Qed.




Lemma level_inj (l1 l2 : Level) : level l1 = level l2 -> l1 = l2.
Proof. destruct l1, l2; intros H; try reflexivity; discriminate H. Qed.

(** No listed word holds a space: a listed word is never taken for a
    phrase. *)
Lemma tier_no_space (l : Level) (w : JS.str) :
  In w (tier l) -> JS.includes w JS.SPACE = false.
Proof.
  assert (H : forallb (fun w => negb (JS.includes w JS.SPACE)) (tier l) = true)
    by (destruct l; vm_compute; reflexivity).
  rewrite forallb_forall in H; intros Hin.
  specialize (H w Hin); destruct (JS.includes w JS.SPACE); [discriminate H | reflexivity].
Qed.

(** The six word sets of the file share no word. *)
Lemma tiers_disjoint (l1 l2 : Level) (w : JS.str) :
  In w (tier l1) -> In w (tier l2) -> l1 = l2.
Proof.
  intros H1 H2.
  assert (D : l1 <> l2 ->
              forallb (fun x => negb (JS.has (tier l2) x)) (tier l1) = true)
    by (intros N; destruct l1, l2;
        try (exfalso; apply N; reflexivity); vm_compute; reflexivity).
  destruct (Nat.eq_dec (rank l1) (rank l2)) as [E|N].
  - destruct l1, l2; simpl in E; try discriminate E; reflexivity.
  - assert (N' : l1 <> l2) by (intros ->; apply N; reflexivity).
    specialize (D N'); rewrite forallb_forall in D; specialize (D w H1).
    apply has_In in H2; rewrite H2 in D; discriminate D.
Qed.

(** The chain of tests of [wordLevel] stops at the first set that holds the
    word. *)
Lemma wordLevel_first_match (w : JS.str) (l : Level) :
  In w (tier l) ->
  (forall l', In w (tier l') -> Level_le l l') ->
  Offline.wordLevel w = level l.
Proof.
  intros Hin Hmin; unfold Offline.wordLevel.
  assert (K : forall l', JS.has (tier l') w = true -> rank l <= rank l').
  { intros l' H; apply has_In in H; exact (Hmin l' H). }
  apply has_In in Hin.
  pose proof (K A1) as K1; pose proof (K A2) as K2; pose proof (K B1) as K3;
    pose proof (K B2) as K4; pose proof (K C1) as K5; pose proof (K C2) as K6.
  clear K Hmin.
  destruct l; cbn [tier rank] in *;
    revert Hin K1 K2 K3 K4 K5 K6;
    destruct (JS.has Offline.a1Words w), (JS.has Offline.a2Words w),
      (JS.has Offline.b1Words w), (JS.has Offline.b2Words w),
      (JS.has Offline.c1Words w), (JS.has Offline.c2Words w);
    intros Hin K1 K2 K3 K4 K5 K6;
    try reflexivity; try discriminate Hin;
    try (specialize (K1 eq_refl); lia); try (specialize (K2 eq_refl); lia);
    try (specialize (K3 eq_refl); lia); try (specialize (K4 eq_refl); lia);
    try (specialize (K5 eq_refl); lia); try (specialize (K6 eq_refl); lia).
Qed.

(** C2.  When the lower-cased, trimmed input is a member of a word set, the
    classifier returns the level of that set if it is the only set holding
    the word, and the lowest level among the sets holding it if there are
    several: the sets are tested from A1 up to C2 and the first match
    returns.  The case of the letters and the white space around the word
    play no part, the condition being on the normalized text. *)
Theorem lexicon_first_tier_wins (fuel : nat) (text : JS.str) (l : Level) :
  In (JS.trim (toLowerCase text)) (tier l) ->
  ((forall l', In (JS.trim (toLowerCase text)) (tier l') -> l' = l) ->
   getCEFRLevelOffline (S fuel) text = Ok (level l))
  /\ ((forall l', In (JS.trim (toLowerCase text)) (tier l') -> Level_le l l') ->
      getCEFRLevelOffline (S fuel) text = Ok (level l)).
Proof.
  intros Hin.
  assert (B : (forall l', In (JS.trim (toLowerCase text)) (tier l') -> Level_le l l') ->
              getCEFRLevelOffline (S fuel) text = Ok (level l)).
  { intros Hmin.
    rewrite getCEFRLevelOffline_word by (eapply tier_no_space; eassumption).
    rewrite (wordLevel_first_match _ _ Hin Hmin); reflexivity. }
  split; [|exact B].
  intros Honly; apply B; intros l' Hl'.
  rewrite (Honly l' Hl'); unfold Level_le; lia.
Qed.

Lemma testLowerLetters_spec (w : JS.str) :
  JS.testLowerLetters w = true <-> lowercaseLatin w.
Proof.
  unfold JS.testLowerLetters, lowercaseLatin.
  rewrite andb_true_iff, truthy_true, forallb_forall, Forall_forall.
  split; intros [H1 H2]; split; try assumption; intros c Hc; specialize (H2 c Hc).
  - unfold JS.isLowerAZ in H2; apply andb_true_iff in H2.
    destruct H2 as [X Y]; apply N.leb_le in X, Y; lia.
  - unfold JS.isLowerAZ; apply andb_true_iff; split; apply N.leb_le; lia.
Qed.

Lemma wordLevel_unlisted (w : JS.str) :
  unlisted w ->
  Offline.wordLevel w =
    if (JS.length w <=? 4) && JS.testLowerLetters w then level A1
    else if JS.length w <=? 6 then level A2
    else if JS.length w <=? 8 then level B1
    else if JS.length w <=? 10 then level B2
    else level C1.
Proof.
  intros U; unfold Offline.wordLevel.
  pose proof (proj2 (has_false _ _) (U A1)) as H1.
  pose proof (proj2 (has_false _ _) (U A2)) as H2.
  pose proof (proj2 (has_false _ _) (U B1)) as H3.
  pose proof (proj2 (has_false _ _) (U B2)) as H4.
  pose proof (proj2 (has_false _ _) (U C1)) as H5.
  pose proof (proj2 (has_false _ _) (U C2)) as H6.
  cbn [tier] in H1, H2, H3, H4, H5, H6.
  rewrite H1, H2, H3, H4, H5, H6; reflexivity.
Qed.

(** C3.  For a single word (lower-cased, trimmed, without a space) that no
    word set holds, the classifier returns A1 if the word has at most 4 code
    units and is made of lowercase Latin letters (at least one, as
    [/^[a-z]+$/] asks); else A2 up to length 6; else B1 up to 8; else B2 up
    to 10; else C1.  So it never returns C2, and of two such words made of
    lowercase letters the shorter never gets the higher level. *)
Theorem heuristic_length_bands :
  (forall (fuel : nat) (text : JS.str),
      let w := JS.trim (toLowerCase text) in
      JS.includes w JS.SPACE = false -> unlisted w ->
      exists l,
        getCEFRLevelOffline (S fuel) text = Ok (level l)
        /\ (JS.length w <= 4 /\ lowercaseLatin w -> l = A1)
        /\ (~ (JS.length w <= 4 /\ lowercaseLatin w) -> JS.length w <= 6 -> l = A2)
        /\ (6 < JS.length w <= 8 -> l = B1)
        /\ (8 < JS.length w <= 10 -> l = B2)
        /\ (10 < JS.length w -> l = C1)
        /\ l <> C2)
  /\ (forall (fuel : nat) (text1 text2 : JS.str) (l1 l2 : Level),
         let w1 := JS.trim (toLowerCase text1) in
         let w2 := JS.trim (toLowerCase text2) in
         JS.includes w1 JS.SPACE = false -> unlisted w1 -> lowercaseLatin w1 ->
         JS.includes w2 JS.SPACE = false -> unlisted w2 -> lowercaseLatin w2 ->
         JS.length w1 <= JS.length w2 ->
         getCEFRLevelOffline (S fuel) text1 = Ok (level l1) ->
         getCEFRLevelOffline (S fuel) text2 = Ok (level l2) ->
         Level_le l1 l2).
Proof.
  assert (Bands : forall w, unlisted w ->
            exists l, Offline.wordLevel w = level l
              /\ (JS.length w <= 4 /\ lowercaseLatin w -> l = A1)
              /\ (~ (JS.length w <= 4 /\ lowercaseLatin w) -> JS.length w <= 6 -> l = A2)
              /\ (6 < JS.length w <= 8 -> l = B1)
              /\ (8 < JS.length w <= 10 -> l = B2)
              /\ (10 < JS.length w -> l = C1)
              /\ l <> C2).
  { intros w U; rewrite (wordLevel_unlisted _ U).
    pose proof (testLowerLetters_spec w) as T.
    destruct (Nat.leb_spec (JS.length w) 4) as [L4|L4];
      destruct (JS.testLowerLetters w) eqn:E; simpl;
      destruct (Nat.leb_spec (JS.length w) 6) as [L6|L6];
      destruct (Nat.leb_spec (JS.length w) 8) as [L8|L8];
      destruct (Nat.leb_spec (JS.length w) 10) as [L10|L10];
      try lia;
      eexists; (split; [reflexivity|]);
      repeat split; intros; try discriminate; try reflexivity; try lia;
      try (exfalso; intuition (try lia; try congruence; fail)). }
  split.
  - intros fuel text w NS U.
    destruct (Bands w U) as (l & E & R).
    exists l; split; [|exact R].
    rewrite getCEFRLevelOffline_word by exact NS; fold w; rewrite E; reflexivity.
  - intros fuel text1 text2 l1 l2 w1 w2 NS1 U1 LL1 NS2 U2 LL2 Len R1 R2.
    rewrite getCEFRLevelOffline_word in R1 by exact NS1.
    rewrite getCEFRLevelOffline_word in R2 by exact NS2.
    fold w1 in R1; fold w2 in R2.
    destruct (Bands w1 U1) as (k1 & E1 & a1 & b1 & c1 & d1 & e1 & _).
    destruct (Bands w2 U2) as (k2 & E2 & a2 & b2 & c2 & d2 & e2 & _).
    rewrite E1 in R1; rewrite E2 in R2.
    assert (Q1 : level k1 = level l1) by congruence.
    assert (Q2 : level k2 = level l2) by congruence.
    apply level_inj in Q1, Q2; subst k1 k2; clear R1 R2.
    unfold Level_le.
    destruct (le_lt_dec (JS.length w1) 4) as [X4|X4].
    { rewrite (a1 (conj X4 LL1)); simpl; lia. }
    destruct (le_lt_dec (JS.length w1) 6) as [X6|X6].
    { rewrite b1 by (try tauto; lia).
      destruct (le_lt_dec (JS.length w2) 6) as [Y6|Y6].
      - rewrite b2 by (try tauto; lia); simpl; lia.
      - destruct (le_lt_dec (JS.length w2) 8); [rewrite c2 by lia; simpl; lia|].
        destruct (le_lt_dec (JS.length w2) 10); [rewrite d2 by lia; simpl; lia|].
        rewrite e2 by lia; simpl; lia. }
    destruct (le_lt_dec (JS.length w1) 8) as [X8|X8].
    { rewrite c1 by lia.
      destruct (le_lt_dec (JS.length w2) 8); [rewrite c2 by lia; simpl; lia|].
      destruct (le_lt_dec (JS.length w2) 10); [rewrite d2 by lia; simpl; lia|].
      rewrite e2 by lia; simpl; lia. }
    destruct (le_lt_dec (JS.length w1) 10) as [X10|X10].
    { rewrite d1 by lia.
      destruct (le_lt_dec (JS.length w2) 10); [rewrite d2 by lia; simpl; lia|].
      rewrite e2 by lia; simpl; lia. }
    rewrite e1 by lia; rewrite e2 by lia; simpl; lia.
Qed.

End OfflineClassifier.

(* ================================================================== *)
(** ** The annotator of [add_cefr_levels_offline.js] *)

Section Annotator.

Variable toLowerCase : JS.str -> JS.str.
Variable more : N.

Local Abbreviation getCEFRLevelOffline := (Offline.getCEFRLevelOffline toLowerCase more).
Local Abbreviation processLine := (Offline.processLine toLowerCase more).
Local Abbreviation processTSVFileOffline := (Offline.processTSVFileOffline toLowerCase more).

(** The entries of [data.split('\n')] hold no LF, so the [replace] of the
    loop finds nothing to remove. *)
Lemma entry_unchanged (data entry : JS.str) :
  In entry (JS.split JS.LF data) -> JS.replaceTerminator entry = entry.
Proof.
  intros Hin; apply replaceTerminator_id.
  pose proof (split_no_sep JS.LF data) as F.
  rewrite Forall_forall in F; exact (F entry Hin).
Qed.

Lemma blank_trim (line : JS.str) : blank line <-> JS.trim line = [].
Proof.
  unfold blank; rewrite trim_nil, Forall_forall, forallb_forall; tauto.
Qed.

(** The fields of a blank line are blank. *)
Lemma blank_field (line f : JS.str) :
  JS.trim line = [] -> In f (JS.split JS.TAB line) -> JS.trim f = [].
Proof.
  rewrite !trim_nil, !forallb_forall; intros B Hf c Hc.
  apply B; eapply split_incl; eassumption.
Qed.

(** Comment lines and blank lines are pushed as they are. *)
Lemma processLine_comment_or_blank (fuel : nat) (entry : JS.str) :
  JS.startsWith (JS.replaceTerminator entry) JS.HASH = true
  \/ JS.trim (JS.replaceTerminator entry) = [] ->
  processLine fuel entry = Ok (JS.replaceTerminator entry).
Proof.
  intros H; unfold Offline.processLine; cbv zeta.
  destruct H as [H|H]; [rewrite H; reflexivity|].
  rewrite H; simpl; rewrite orb_true_r; reflexivity.
Qed.

(** So are the lines of fewer than 12 fields. *)
Lemma processLine_short (fuel : nat) (entry : JS.str) :
  List.length (JS.split JS.TAB (JS.replaceTerminator entry)) < 12 ->
  processLine fuel entry = Ok (JS.replaceTerminator entry).
Proof.
  intros H; unfold Offline.processLine; cbv zeta.
  destruct (JS.startsWith _ _ || negb _); [reflexivity|].
  destruct (Nat.leb_spec 12 (List.length (JS.split JS.TAB (JS.replaceTerminator entry))));
    [lia | reflexivity].
Qed.

(** A record with text in its fourth field: what is pushed. *)
Lemma processLine_record (fuel : nat) (entry column3 column11 : JS.str) (v : value) :
  JS.startsWith (JS.replaceTerminator entry) JS.HASH = false ->
  12 <= List.length (JS.split JS.TAB (JS.replaceTerminator entry)) ->
  nth_error (JS.split JS.TAB (JS.replaceTerminator entry)) 3 = Some column3 ->
  nth_error (JS.split JS.TAB (JS.replaceTerminator entry)) 11 = Some column11 ->
  JS.trim column3 <> [] ->
  getCEFRLevelOffline fuel (JS.trim column3) = Ok v ->
  processLine fuel entry
  = Ok (JS.join JS.TAB
          (JS.update 11
             (if JS.truthy (JS.trim column11)
              then column11 ++ JS.SPACE :: toStr v else joined v)
             (JS.split JS.TAB (JS.replaceTerminator entry)))).
Proof.
  intros NH Len E3 E11 T3 R; unfold Offline.processLine; cbv zeta.
  assert (NB : JS.trim (JS.replaceTerminator entry) <> []).
  { intros B; apply T3; apply (blank_field _ _ B).
    eapply nth_error_In; exact E3. }
  apply truthy_true in NB, T3.
  rewrite NH, NB; cbn [negb orb].
  destruct (Nat.leb_spec 12 (List.length (JS.split JS.TAB (JS.replaceTerminator entry))));
    [|lia].
  unfold item; rewrite E3; cbn [bind]; rewrite T3, R; cbn [bind].
  rewrite E11; cbn [bind].
  destruct (JS.truthy (JS.trim column11)); reflexivity.
Qed.

(** A record whose fourth field is blank is rebuilt from its fields. *)
Lemma processLine_no_text (fuel : nat) (entry column3 : JS.str) :
  nth_error (JS.split JS.TAB (JS.replaceTerminator entry)) 3 = Some column3 ->
  JS.trim column3 = [] ->
  processLine fuel entry = Ok (JS.replaceTerminator entry).
Proof.
  intros E3 T3; unfold Offline.processLine; cbv zeta.
  destruct (JS.startsWith _ _ || negb _); [reflexivity|].
  destruct (12 <=? _); [|reflexivity].
  unfold item; rewrite E3; cbn [bind]; rewrite T3; cbn [JS.truthy bind].
  rewrite join_split; reflexivity.
Qed.

Lemma levelName_no_tab (l : Level) : ~ In JS.TAB (levelName l).
Proof.
  apply includes_false; destruct l; reflexivity.
Qed.

(** The fields of the line pushed for a record that got the level [l]. *)
Lemma processLine_record_fields
      (fuel : nat) (entry column3 column11 : JS.str) (l : Level) :
  JS.startsWith (JS.replaceTerminator entry) JS.HASH = false ->
  12 <= List.length (JS.split JS.TAB (JS.replaceTerminator entry)) ->
  nth_error (JS.split JS.TAB (JS.replaceTerminator entry)) 3 = Some column3 ->
  nth_error (JS.split JS.TAB (JS.replaceTerminator entry)) 11 = Some column11 ->
  JS.trim column3 <> [] ->
  getCEFRLevelOffline fuel (JS.trim column3) = Ok (level l) ->
  exists out,
    processLine fuel entry = Ok out
    /\ List.length (JS.split JS.TAB out)
       = List.length (JS.split JS.TAB (JS.replaceTerminator entry))
    /\ (forall j, j <> 11 ->
                  nth_error (JS.split JS.TAB out) j
                  = nth_error (JS.split JS.TAB (JS.replaceTerminator entry)) j)
    /\ nth_error (JS.split JS.TAB out) 11
       = Some (if JS.truthy (JS.trim column11)
               then column11 ++ JS.SPACE :: levelName l
               else levelName l).
Proof.
  intros NH Len E3 E11 T3 R.
  eexists; split.
  - apply (processLine_record _ _ _ _ _ NH Len E3 E11 T3 R).
  - change (toStr (level l)) with (levelName l).
    change (joined (level l)) with (levelName l).
    rewrite split_join.
    + split; [apply update_length|]; split.
      * intros j Hj; apply update_other; congruence.
      * apply update_same; lia.
    + apply update_not_nil, split_not_nil.
    + apply update_Forall; [|apply split_no_sep].
      assert (N11 : ~ In JS.TAB column11).
      { pose proof (split_no_sep JS.TAB (JS.replaceTerminator entry)) as F.
        rewrite Forall_forall in F; apply F.
        eapply nth_error_In; exact E11. }
      pose proof (levelName_no_tab l) as NL.
      destruct (JS.truthy (JS.trim column11)); [|exact NL].
      rewrite in_app_iff; simpl; intros [K|[K|K]];
        [tauto | discriminate K | tauto].
Qed.

(** C6.  A line that is blank (empty or white space only), starts with '#',
    or splits into fewer than 12 fields is pushed as it is, for any fuel:
    the result is [Ok], no exception, and the line pushed is the entry of
    [data.split('\n')] itself, code unit for code unit. *)
Theorem passthrough_line_unchanged (fuel : nat) (data entry : JS.str) :
  In entry (JS.split JS.LF data) ->
  blank entry \/ JS.startsWith entry JS.HASH = true
  \/ List.length (JS.split JS.TAB entry) < 12 ->
  processLine fuel entry = Ok entry.
Proof.
  intros Hin H.
  pose proof (entry_unchanged _ _ Hin) as E.
  destruct H as [H|[H|H]].
  - rewrite processLine_comment_or_blank; rewrite E; [reflexivity|].
    right; apply blank_trim; exact H.
  - rewrite processLine_comment_or_blank; rewrite E; [reflexivity|].
    left; exact H.
  - rewrite processLine_short; rewrite E; [reflexivity | exact H].
Qed.

Hypothesis lower_ascii : JS.LowerCaseOnAscii toLowerCase.


Lemma mapM_total {A B : Type} (f : A -> result B) (xs : list A) :
  (forall x, exists y, f x = Ok y) -> exists ys, mapM f xs = Ok ys.
Proof.
  intros T; induction xs as [|x xs [ys IH]]; simpl.
  - exists []; reflexivity.
  - destruct (T x) as [y Hy]; rewrite Hy, IH; simpl.
    exists (y :: ys); reflexivity.
Qed.




Lemma beautiful_unlisted : unlisted (JS.lit "beautiful").
Proof.
  intros l; apply has_false; destruct l; vm_compute; reflexivity.
Qed.

Lemma beautiful_day_words :
  Offline.phraseWords toLowerCase (JS.lit "this is a beautiful day")
  = map JS.lit ["this"; "is"; "a"; "beautiful"; "day"]%string.
Proof.
  unfold Offline.phraseWords.
  rewrite lower_ascii by reflexivity.
  vm_compute; reflexivity.
Qed.

Lemma beautiful_day_level (fuel : nat) :
  getCEFRLevelOffline (S (S fuel)) (JS.lit "This is a beautiful day")
  = Ok (level B2).
Proof.
  rewrite getCEFRLevelOffline_phrase;
    rewrite (lower_ascii (JS.lit "This is a beautiful day")) by reflexivity;
    [|vm_compute; reflexivity].
  replace (JS.trim (map JS.asciiLower (JS.lit "This is a beautiful day")))
    with (JS.lit "this is a beautiful day") by (vm_compute; reflexivity).
  unfold Offline.analyzePhrase, Offline.analyzePhraseWith; cbv zeta.
  rewrite beautiful_day_words.
  cbn [map List.length Nat.eqb mapM].
  rewrite !(word_run toLowerCase more lower_ascii) by reflexivity.
  cbn [bind].
  rewrite Math_max_within
    by (cbn [map List.length]; unfold argumentLimit, argumentFloor; lia).
  vm_compute; reflexivity.
Qed.

(** C8.  The phrase "This is a beautiful day" splits into the words this,
    is, a, beautiful, day; "beautiful" is in no word set, has 9 code units
    and gets B2 from the length bands; no other word gets more; the phrase
    gets B2, and a record of at least 12 fields with that phrase in field 3
    and an empty field 11 is pushed with field 11 set to "B2", the other
    fields unchanged. *)
Theorem beautiful_day_record (fuel : nat) (entry : JS.str) :
  let line := JS.replaceTerminator entry in
  let columns := JS.split JS.TAB line in
  JS.startsWith line JS.HASH = false ->
  12 <= List.length columns ->
  nth_error columns 3 = Some (JS.lit "This is a beautiful day") ->
  nth_error columns 11 = Some [] ->
  Offline.phraseWords toLowerCase (JS.lit "this is a beautiful day")
  = map JS.lit ["this"; "is"; "a"; "beautiful"; "day"]%string
  /\ unlisted (JS.lit "beautiful")
  /\ JS.length (JS.lit "beautiful") = 9
  /\ getCEFRLevelOffline (S fuel) (JS.lit "beautiful") = Ok (level B2)
  /\ Forall (fun w => exists l, getCEFRLevelOffline (S fuel) w = Ok (level l)
                                /\ Level_le l B2)
            (map JS.lit ["this"; "is"; "a"; "beautiful"; "day"]%string)
  /\ exists out,
      processLine (S (S fuel)) entry = Ok out
      /\ List.length (JS.split JS.TAB out) = List.length columns
      /\ (forall j, j <> 11 ->
                    nth_error (JS.split JS.TAB out) j = nth_error columns j)
      /\ nth_error (JS.split JS.TAB out) 11 = Some (JS.lit "B2").
Proof.
  intros line columns NH Len E3 E11; subst line columns.
  split; [exact beautiful_day_words|].
  split; [exact beautiful_unlisted|].
  split; [reflexivity|].
  split; [rewrite (word_run toLowerCase more lower_ascii) by reflexivity;
          vm_compute; reflexivity|].
  split.
  - cbn [map]; repeat constructor.
    + exists A1; rewrite (word_run toLowerCase more lower_ascii) by reflexivity.
      split; [vm_compute; reflexivity | unfold Level_le; simpl; lia].
    + exists A1; rewrite (word_run toLowerCase more lower_ascii) by reflexivity.
      split; [vm_compute; reflexivity | unfold Level_le; simpl; lia].
    + exists A1; rewrite (word_run toLowerCase more lower_ascii) by reflexivity.
      split; [vm_compute; reflexivity | unfold Level_le; simpl; lia].
    + exists B2; rewrite (word_run toLowerCase more lower_ascii) by reflexivity.
      split; [vm_compute; reflexivity | unfold Level_le; simpl; lia].
    + exists A1; rewrite (word_run toLowerCase more lower_ascii) by reflexivity.
      split; [vm_compute; reflexivity | unfold Level_le; simpl; lia].
  - assert (T : JS.trim (JS.lit "This is a beautiful day")
                = JS.lit "This is a beautiful day") by (vm_compute; reflexivity).
    assert (T3 : JS.trim (JS.lit "This is a beautiful day") <> [])
      by (rewrite T; discriminate).
    assert (R : getCEFRLevelOffline (S (S fuel))
                  (JS.trim (JS.lit "This is a beautiful day")) = Ok (level B2))
      by (rewrite T; apply beautiful_day_level).
    destruct (processLine_record_fields _ _ _ _ _ NH Len E3 E11 T3 R)
      as (out & P & L & O & F).
    exists out; repeat split; assumption.
Qed.

(** C7, on the code.  The entries of [data.split('\n')] hold no LF, so the
    [replace(/\r?\n$/, '')] of the loop never removes anything: the carriage
    return of a CRLF terminator stays at the end of the line.  On the record
    "w x y cat 4 ... 10 tag" of a CRLF file the level is appended after the
    carriage return. *)
Theorem carriage_return_kept :
  (forall data entry : JS.str,
      In entry (JS.split JS.LF data) -> JS.replaceTerminator entry = entry)
  /\ JS.split JS.LF crlfFile = [crLine; JS.lit "#end" ++ [JS.CR]; []]
  /\ JS.replaceTerminator crLine = crLine
  /\ Offline.processTSVFileOffline JS.asciiToLowerCase more 2 crlfFile
     = Ok crlfFileOutput.
Proof.
  split; [exact entry_unchanged|].
  repeat split; vm_compute; reflexivity.
Qed.

End Annotator.

(* ================================================================== *)
(** ** The two copies of the classifier *)

Section TwoCopies.

Variable toLowerCase : JS.str -> JS.str.
Variable more : N.

Lemma mapM_ext {A B : Type} (f g : A -> result B) (xs : list A) :
  (forall x, f x = g x) -> mapM f xs = mapM g xs.
Proof.
  intros E; induction xs as [|x xs IH]; simpl; [reflexivity|].
  rewrite E, IH; reflexivity.
Qed.

Lemma wordLevel_same (w : JS.str) : Api.wordLevel w = Offline.wordLevel w.
Proof. reflexivity. Qed.

Lemma analyzePhraseWith_same (f g : JS.str -> result value) (phrase : JS.str) :
  (forall w, f w = g w) ->
  Api.analyzePhraseWith toLowerCase more f phrase
  = Offline.analyzePhraseWith toLowerCase more g phrase.
Proof.
  intros E; unfold Api.analyzePhraseWith, Offline.analyzePhraseWith.
  change (Api.phraseWords toLowerCase phrase)
    with (Offline.phraseWords toLowerCase phrase).
  rewrite (mapM_ext f g _ E); reflexivity.
Qed.

Lemma getBasicCEFRLevel_same (fuel : nat) (text : JS.str) :
  Api.getBasicCEFRLevel toLowerCase more fuel text
  = Offline.getCEFRLevelOffline toLowerCase more fuel text.
Proof.
  revert text; induction fuel as [|fuel IH]; intros text; [reflexivity|].
  simpl.
  destruct (JS.includes (JS.trim (toLowerCase text)) JS.SPACE).
  - apply analyzePhraseWith_same; exact IH.
  - rewrite wordLevel_same; reflexivity.
Qed.

Lemma analyzePhrase_same (fuel : nat) (phrase : JS.str) :
  Api.analyzePhrase toLowerCase more fuel phrase
  = Offline.analyzePhrase toLowerCase more fuel phrase.
Proof.
  apply analyzePhraseWith_same; intros w; apply getBasicCEFRLevel_same.
Qed.

(** C9.  The local classifier is the same function in the two files:
    [getBasicCEFRLevel] and [getCEFRLevelOffline] return the same result on
    every input, with any fuel; so do the two [analyzePhrase].  The six word
    sets are the same lists, the length bands and the tables of
    [analyzePhrase] the same. *)
Theorem duplicated_classifier_equal (fuel : nat) (text : JS.str) :
  Api.getBasicCEFRLevel toLowerCase more fuel text
  = Offline.getCEFRLevelOffline toLowerCase more fuel text
  /\ Api.analyzePhrase toLowerCase more fuel text
     = Offline.analyzePhrase toLowerCase more fuel text
  /\ Api.wordLevel text = Offline.wordLevel text
  /\ [Api.a1Words; Api.a2Words; Api.b1Words; Api.b2Words; Api.c1Words; Api.c2Words]
     = [Offline.a1Words; Offline.a2Words; Offline.b1Words;
        Offline.b2Words; Offline.c1Words; Offline.c2Words]
  /\ Api.levelValues = Offline.levelValues
  /\ Api.levelNames = Offline.levelNames.
Proof.
  split; [apply getBasicCEFRLevel_same|].
  split; [apply analyzePhrase_same|].
  repeat split; reflexivity.
Qed.

(** C10.  An input that is empty once lower-cased and trimmed gets 'A2' from
    both classifiers: the empty text holds no space, so it is not a phrase;
    no word set holds it; [/^[a-z]+$/] rejects it, so the A1 band is skipped;
    its length 0 is at most 6. *)
Theorem empty_text_level_A2 (fuel : nat) (text : JS.str) :
  JS.trim (toLowerCase text) = [] ->
  Offline.getCEFRLevelOffline toLowerCase more (S fuel) text = Ok (level A2)
  /\ Api.getBasicCEFRLevel toLowerCase more (S fuel) text = Ok (level A2)
  /\ JS.includes [] JS.SPACE = false
  /\ unlisted []
  /\ JS.testLowerLetters [] = false
  /\ JS.length [] <= 6.
Proof.
  intros E.
  assert (R : Offline.getCEFRLevelOffline toLowerCase more (S fuel) text = Ok (level A2)).
  { simpl; rewrite E; vm_compute; reflexivity. }
  split; [exact R|].
  split; [rewrite getBasicCEFRLevel_same; exact R|].
  split; [reflexivity|].
  split; [intros l; apply has_false; destruct l; vm_compute; reflexivity|].
  split; [reflexivity | simpl; lia].
Qed.

End TwoCopies.

(* ================================================================== *)
(** ** The remote lookup of [add_cefr_levels.js] *)

Section Remote.

Variable toLowerCase : JS.str -> JS.str.
Variable more : N.
Variable toUpperCase : JS.str -> JS.str.
Variable JSON_parse : JS.str -> option json.
Variable https_request : JS.str -> exchange.

Local Abbreviation queryAPI := (Api.queryAPI toLowerCase toUpperCase JSON_parse https_request).
Local Abbreviation tryAPI := (Api.tryAPI toLowerCase toUpperCase JSON_parse https_request).
Local Abbreviation getCEFRLevel :=
  (Api.getCEFRLevel toLowerCase more toUpperCase JSON_parse https_request).

(** A truthy value that is no string with something in it makes
    [toUpperCase] throw. *)
Lemma upperCased_no_string (v : option json) :
  (forall s, v = Some (JString s) -> s = []) ->
  truthyJson v = true ->
  Api.upperCased toUpperCase v = Rejected TypeError.
Proof.
  intros H T; destruct v as [[| | |s| |]|]; try reflexivity.
  rewrite (H s eq_refl) in T; discriminate T.
Qed.

(** On a response without a level string the promise is rejected or is
    resolved with 'UNKNOWN'. *)
Lemma settle_no_level (response : json) :
  noLevelString response ->
  let r := Some response in
  (if truthyJson r
      && truthyJson (prop r (JS.lit "word"))
      && truthyJson (prop (prop r (JS.lit "word")) (JS.lit "level"))
   then Api.upperCased toUpperCase (prop (prop r (JS.lit "word")) (JS.lit "level"))
   else if truthyJson r && truthyJson (prop r (JS.lit "level"))
        then Api.upperCased toUpperCase (prop r (JS.lit "level"))
        else Resolved (JS.lit "UNKNOWN"))
  = Rejected TypeError
  \/ (if truthyJson r
         && truthyJson (prop r (JS.lit "word"))
         && truthyJson (prop (prop r (JS.lit "word")) (JS.lit "level"))
      then Api.upperCased toUpperCase (prop (prop r (JS.lit "word")) (JS.lit "level"))
      else if truthyJson r && truthyJson (prop r (JS.lit "level"))
           then Api.upperCased toUpperCase (prop r (JS.lit "level"))
           else Resolved (JS.lit "UNKNOWN"))
     = Resolved (JS.lit "UNKNOWN").
Proof.
  intros [N1 N2] r; subst r.
  destruct (truthyJson (Some response)); cbn [andb]; [|right; reflexivity].
  destruct (truthyJson (prop (Some response) (JS.lit "word"))); cbn [andb].
  - destruct (truthyJson (prop (prop (Some response) (JS.lit "word")) (JS.lit "level")))
      eqn:T1.
    + left; apply upperCased_no_string; assumption.
    + destruct (truthyJson (prop (Some response) (JS.lit "level"))) eqn:T2.
      * left; apply upperCased_no_string; assumption.
      * right; reflexivity.
  - destruct (truthyJson (prop (Some response) (JS.lit "level"))) eqn:T2.
    + left; apply upperCased_no_string; assumption.
    + right; reflexivity.
Qed.

(** A failed lookup returns nothing from the [try] block. *)
Lemma tryAPI_failure (text : JS.str) :
  remoteFailure JSON_parse (https_request (toLowerCase text)) ->
  tryAPI text = None.
Proof.
  unfold Api.tryAPI, Api.queryAPI.
  intros [E|[E|(data & E & [P|(response & P & N)])]]; rewrite E; try reflexivity.
  - rewrite P; reflexivity.
  - rewrite P; cbv zeta.
    destruct (settle_no_level response N) as [Q|Q]; cbv zeta in Q; rewrite Q;
      reflexivity.
Qed.

Hypothesis lower_ascii : JS.LowerCaseOnAscii toLowerCase.


End Remote.

(* ================================================================== *)
(** ** The statements on concrete inputs *)

(** The closed examples run with [asciiToLowerCase], which is
    [toLowerCase] on the ASCII strings they use. *)
Lemma asciiToLowerCase_onAscii : JS.LowerCaseOnAscii JS.asciiToLowerCase.
Proof. intros s _; reflexivity. Qed.


(** "  CaT " is the A1 word "cat". *)
Lemma lexicon_first_tier_wins_witness :
  Offline.getCEFRLevelOffline JS.asciiToLowerCase 0%N 1 (JS.lit "  CaT ") = Ok (level A1).
Proof.
  refine (proj1 (lexicon_first_tier_wins JS.asciiToLowerCase 0%N 0
                   (JS.lit "  CaT ") A1 _) _).
  - apply has_In; vm_compute; reflexivity.
  - intros l' H; apply has_In in H.
    destruct l'; try reflexivity; vm_compute in H; discriminate H.
Defined.

(** "qzx" is in no word set and has three lowercase letters. *)
Lemma heuristic_length_bands_witness :
  Offline.getCEFRLevelOffline JS.asciiToLowerCase 0%N 1 (JS.lit "qzx") = Ok (level A1).
Proof.
  destruct (proj1 (heuristic_length_bands JS.asciiToLowerCase 0%N) 0 (JS.lit "qzx"))
    as (l & R & a & _).
  - vm_compute; reflexivity.
  - intros l; apply has_false; destruct l; vm_compute; reflexivity.
  - rewrite R, a; [reflexivity|].
    split; [vm_compute; lia|].
    apply testLowerLetters_spec; vm_compute; reflexivity.
Defined.



(** A comment line. *)
Lemma passthrough_line_unchanged_witness :
  Offline.processLine JS.asciiToLowerCase 0%N 0 (JS.lit "#note") = Ok (JS.lit "#note").
Proof.
  apply (passthrough_line_unchanged JS.asciiToLowerCase 0%N 0
           (JS.lit "#note") (JS.lit "#note")).
  - left; reflexivity.
  - right; left; reflexivity.
Defined.

(** The record "w x y This is a beautiful day 4 ... 10" with an empty level
    field. *)
Lemma beautiful_day_record_witness :
  exists out,
    Offline.processLine JS.asciiToLowerCase 0%N 2 beautifulDayLine = Ok out
    /\ nth_error (JS.split JS.TAB out) 11 = Some (JS.lit "B2").
Proof.
  destruct (beautiful_day_record JS.asciiToLowerCase 0%N asciiToLowerCase_onAscii
              0 beautifulDayLine eq_refl (le_n 12) eq_refl eq_refl)
    as (_ & _ & _ & _ & _ & out & P & _ & _ & F).
  exists out; split; [exact P | exact F].
Defined.

(** Three spaces. *)
Lemma empty_text_level_A2_witness :
  Offline.getCEFRLevelOffline JS.asciiToLowerCase 0%N 1 (JS.lit "   ") = Ok (level A2)
  /\ Api.getBasicCEFRLevel JS.asciiToLowerCase 0%N 1 (JS.lit "   ") = Ok (level A2).
Proof.
  destruct (empty_text_level_A2 JS.asciiToLowerCase 0%N 0 (JS.lit "   ") eq_refl)
    as (R1 & R2 & _).
  split; [exact R1 | exact R2].
Defined.


(** A text with a space in front only is trimmed before the test for a
    phrase: " don't" is classified as the one word "don't", of 5 code units,
    while [analyzePhrase] on the same text classifies the word "dont". *)
Example leading_space_is_no_phrase :
  Offline.getCEFRLevelOffline JS.asciiToLowerCase 0%N 2 (JS.lit " don't") = Ok (level A2)
  /\ Offline.analyzePhrase JS.asciiToLowerCase 0%N 1 (JS.lit " don't") = Ok (level A1).
Proof.
  split; vm_compute; reflexivity.
Qed.

(* ================================================================== *)
(** ** The output file as a whole *)

Section OutputFile.

Variable toLowerCase : JS.str -> JS.str.
Variable more : N.

Local Abbreviation getCEFRLevelOffline := (Offline.getCEFRLevelOffline toLowerCase more).
Local Abbreviation processLine := (Offline.processLine toLowerCase more).
Local Abbreviation processTSVFileOffline := (Offline.processTSVFileOffline toLowerCase more).

Lemma Ok_inj {A : Type} (a b : A) : Ok a = Ok b -> a = b.
Proof. intros H; injection H as H; exact H. Qed.




(** A line that is no record with text is pushed as it is, whatever the
    fuel. *)
Lemma processLine_not_textRecord (fuel : nat) (data entry : JS.str) :
  In entry (JS.split JS.LF data) -> ~ textRecord entry ->
  processLine fuel entry = Ok entry.
Proof.
  intros Hin NR.
  pose proof (entry_unchanged _ _ Hin) as E.
  destruct (JS.startsWith entry JS.HASH) eqn:H.
  { rewrite processLine_comment_or_blank; rewrite E; auto. }
  destruct (le_lt_dec 12 (List.length (JS.split JS.TAB entry))) as [L|L].
  - destruct (nth_error (JS.split JS.TAB entry) 3) as [column3|] eqn:E3;
      [|apply nth_error_None in E3; lia].
    destruct (JS.trim column3) eqn:T3.
    + rewrite (processLine_no_text toLowerCase more fuel entry column3);
        try rewrite E; auto.
    + exfalso; apply NR; split; [exact H|]; split; [exact L|].
      exists column3; split; [exact E3 | rewrite T3; discriminate].
  - rewrite processLine_short; rewrite E; auto.
Qed.

Lemma mapM_id (f : JS.str -> result JS.str) (xs : list JS.str) :
  (forall x, In x xs -> f x = Ok x) -> mapM f xs = Ok xs.
Proof.
  induction xs as [|x xs IH]; intros H; simpl; [reflexivity|].
  rewrite (H x) by (left; reflexivity); simpl.
  rewrite IH by (intros y Hy; apply H; right; exact Hy); reflexivity.
Qed.

(** X2.  A file in which no line is a record with text (every line is a
    comment, blank, shorter than 12 fields, or has a blank fourth field) is
    written back exactly as it was read. *)
Theorem file_without_records_unchanged (fuel : nat) (data : JS.str) :
  (forall entry, In entry (JS.split JS.LF data) -> ~ textRecord entry) ->
  processTSVFileOffline fuel data = Ok data.
Proof.
  intros H; unfold Offline.processTSVFileOffline; cbv zeta.
  rewrite mapM_id.
  - simpl; rewrite join_split; reflexivity.
  - intros entry Hin; apply (processLine_not_textRecord fuel data); auto.
Qed.

Lemma mapM_Forall2 {A B : Type} (f : A -> result B) (xs : list A) (ys : list B) :
  mapM f xs = Ok ys -> Forall2 (fun x y => f x = Ok y) xs ys.
Proof.
  revert ys; induction xs as [|x xs IH]; intros ys; simpl.
  - intros H; injection H as <-; constructor.
  - destruct (f x) as [y| |] eqn:E; simpl; try discriminate.
    destruct (mapM f xs) as [ys'| |]; simpl; try discriminate.
    intros H; injection H as <-; constructor; [exact E | apply IH; reflexivity].
Qed.

Lemma Forall2_In_left {A B : Type} (R : A -> B -> Prop)
      (xs : list A) (ys : list B) (x : A) :
  Forall2 R xs ys -> In x xs -> exists y, In y ys /\ R x y.
Proof.
  induction 1 as [|x' y xs ys Hxy F IH]; intros Hin; [destruct Hin|].
  destruct Hin as [->|Hin].
  - exists y; split; [left; reflexivity | exact Hxy].
  - destruct (IH Hin) as (y' & Hy' & Ry'); exists y'; split; [right|]; assumption.
Qed.


Hypothesis lower_ascii : JS.LowerCaseOnAscii toLowerCase.




(** X16.  A record whose text is a phrase of more words than the engine
    passes as arguments to [Math.max] makes the turn of the loop throw a
    RangeError, and the annotator then writes no output at all. *)
Theorem overlong_phrase_aborts (fuel : nat) (data entry column3 : JS.str) :
  In entry (JS.split JS.LF data) ->
  JS.startsWith entry JS.HASH = false ->
  12 <= List.length (JS.split JS.TAB entry) ->
  nth_error (JS.split JS.TAB entry) 3 = Some column3 ->
  JS.includes (JS.trim (toLowerCase (JS.trim column3))) JS.SPACE = true ->
  ~ textFits toLowerCase more (JS.trim column3) ->
  processLine (S (S fuel)) entry = Throw RangeError
  /\ forall out, processTSVFileOffline (S (S fuel)) data <> Ok out.
Proof.
  intros Hin NH Len E3 Sp WL.
  pose proof (entry_unchanged _ _ Hin) as E.
  assert (T3 : JS.trim column3 <> []).
  { intros Z; rewrite Z in WL; apply WL.
    unfold textFits, withinLimit.
    pose proof (phraseWords_wordChars toLowerCase (JS.trim (toLowerCase []))) as F.
    rewrite Z in Sp.
    destruct (JS.trim (toLowerCase [])) eqn:Q; [discriminate Sp|].
    rewrite (lower_ascii [] eq_refl) in Q; discriminate Q. }
  assert (P : processLine (S (S fuel)) entry = Throw RangeError).
  { unfold Offline.processLine; cbv zeta; rewrite E, NH.
    assert (NB : JS.trim entry <> []).
    { intros B; apply T3; apply (blank_field _ _ B).
      eapply nth_error_In; exact E3. }
    apply (proj2 (truthy_true _)) in NB; rewrite NB; cbn [negb orb].
    destruct (Nat.leb_spec 12 (List.length (JS.split JS.TAB entry))); [|lia].
    unfold item; rewrite E3; cbn [bind].
    apply (proj2 (truthy_true _)) in T3; rewrite T3.
    rewrite getCEFRLevelOffline_phrase by exact Sp.
    rewrite (analyzePhrase_beyond toLowerCase more lower_ascii) by exact WL.
    reflexivity. }
  split; [exact P|].
  intros out; unfold Offline.processTSVFileOffline; cbv zeta.
  destruct (mapM (processLine (S (S fuel))) (JS.split JS.LF data))
    as [ys| |] eqn:M; cbn [bind]; try discriminate.
  exfalso.
  destruct (Forall2_In_left _ _ _ _ (mapM_Forall2 _ _ _ M) Hin) as (y & _ & Hy).
  rewrite P in Hy; discriminate Hy.
Qed.




End OutputFile.

(* ================================================================== *)
(** ** More on the offline classifier *)

Section ClassifierMore.

Variable toLowerCase : JS.str -> JS.str.
Variable more : N.

Local Abbreviation getCEFRLevelOffline := (Offline.getCEFRLevelOffline toLowerCase more).
Local Abbreviation analyzePhrase := (Offline.analyzePhrase toLowerCase more).
Local Abbreviation phraseWords := (Offline.phraseWords toLowerCase).

Lemma Forall2_In_right {A B : Type} (R : A -> B -> Prop)
      (xs : list A) (ys : list B) (y : B) :
  Forall2 R xs ys -> In y ys -> exists x, In x xs /\ R x y.
Proof.
  induction 1 as [|x y' xs ys Hxy F IH]; intros Hin; [destruct Hin|].
  destruct Hin as [->|Hin].
  - exists x; split; [left; reflexivity | exact Hxy].
  - destruct (IH Hin) as (x' & Hx' & Rx'); exists x'; split; [right|]; assumption.
Qed.

(** Only the last word set gives 'C2'. *)
Lemma wordLevel_C2 (w : JS.str) :
  Offline.wordLevel w = level C2 -> In w Offline.c2Words.
Proof.
  unfold Offline.wordLevel.
  destruct (JS.has Offline.a1Words w); [intros Q; vm_compute in Q; discriminate Q|].
  destruct (JS.has Offline.a2Words w); [intros Q; vm_compute in Q; discriminate Q|].
  destruct (JS.has Offline.b1Words w); [intros Q; vm_compute in Q; discriminate Q|].
  destruct (JS.has Offline.b2Words w); [intros Q; vm_compute in Q; discriminate Q|].
  destruct (JS.has Offline.c1Words w); [intros Q; vm_compute in Q; discriminate Q|].
  destruct (JS.has Offline.c2Words w) eqn:H; [intros _; apply has_In; exact H|].
  repeat match goal with
         | |- context [if ?b then _ else _] => destruct b
         end; intros Q; vm_compute in Q; discriminate Q.
Qed.

Hypothesis lower_ascii : JS.LowerCaseOnAscii toLowerCase.

(** X4.  'C2' comes from the C2 word set only: when the classifier returns
    'C2', the lower-cased, trimmed text is a C2 word, or it is a phrase with
    a C2 word among its words.  No length band and no other set gives it. *)
Theorem level_C2_only_from_word_set (fuel : nat) (text : JS.str) :
  getCEFRLevelOffline (S (S fuel)) text = Ok (level C2) ->
  In (JS.trim (toLowerCase text)) Offline.c2Words
  \/ (JS.includes (JS.trim (toLowerCase text)) JS.SPACE = true
      /\ exists w, In w (phraseWords (JS.trim (toLowerCase text)))
                   /\ In (JS.trim (toLowerCase w)) Offline.c2Words).
Proof.
  destruct (JS.includes (JS.trim (toLowerCase text)) JS.SPACE) eqn:S.
  - rewrite getCEFRLevelOffline_phrase by exact S; intros R; right.
    split; [reflexivity|].
    destruct (phraseWords (JS.trim (toLowerCase text))) as [|w0 ws] eqn:W.
    + rewrite (analyzePhrase_no_words toLowerCase more _ _ W) in R.
      apply Ok_inj, level_inj in R; discriminate R.
    + assert (WL : withinLimit more (phraseWords (JS.trim (toLowerCase text)))).
      { unfold withinLimit.
        destruct (N.le_gt_cases
                    (N.of_nat (List.length (phraseWords (JS.trim (toLowerCase text)))))
                    (argumentLimit more)) as [L|L]; [exact L|].
        rewrite (analyzePhrase_beyond toLowerCase more lower_ascii) in R;
          [discriminate R | unfold withinLimit; lia]. }
      destruct (analyzePhrase_words toLowerCase more lower_ascii fuel
                  (JS.trim (toLowerCase text)))
        as (levels & m & F & [Hin _] & Rm);
        [rewrite W; discriminate | exact WL |].
      rewrite Rm in R; apply Ok_inj, level_inj in R; subst m.
      rewrite W in F.
      destruct (Forall2_In_right _ _ _ _ F Hin) as (w & Hw & NS & Rw).
      exists w; split; [exact Hw|].
      rewrite getCEFRLevelOffline_word in Rw by exact NS.
      apply Ok_inj in Rw; apply wordLevel_C2; exact Rw.
  - rewrite getCEFRLevelOffline_word by exact S; intros R; left.
    apply Ok_inj in R; apply wordLevel_C2; exact R.
Qed.

(** *** Letter case and white space around the text *)

Lemma trimStart_pad (p s : JS.str) :
  forallb JS.isWhiteSpace p = true -> JS.trimStart (p ++ s) = JS.trimStart s.
Proof.
  induction p as [|c p IH]; simpl; intros H; [reflexivity|].
  apply andb_true_iff in H; destruct H as [Hc Hp].
  rewrite Hc; apply IH; exact Hp.
Qed.

Lemma trimStart_app (s p : JS.str) :
  JS.trimStart (s ++ p)
  = match JS.trimStart s with
    | [] => JS.trimStart p
    | _ :: _ => JS.trimStart s ++ p
    end.
Proof.
  induction s as [|c s IH]; simpl; [reflexivity|].
  destruct (JS.isWhiteSpace c); [exact IH | reflexivity].
Qed.

Lemma trimEnd_pad (s p : JS.str) :
  forallb JS.isWhiteSpace p = true -> JS.trimEnd (s ++ p) = JS.trimEnd s.
Proof.
  intros H; unfold JS.trimEnd; rewrite rev_app_distr, trimStart_pad;
    [reflexivity | rewrite forallb_rev; exact H].
Qed.

(** White space at both ends does not survive [trim]. *)
Lemma trim_pad (p1 s p2 : JS.str) :
  forallb JS.isWhiteSpace p1 = true -> forallb JS.isWhiteSpace p2 = true ->
  JS.trim (p1 ++ s ++ p2) = JS.trim s.
Proof.
  intros H1 H2; unfold JS.trim.
  rewrite trimStart_pad by exact H1.
  rewrite trimStart_app.
  destruct (JS.trimStart s) as [|c r] eqn:E.
  - rewrite (proj2 (trimStart_nil p2) H2); reflexivity.
  - apply trimEnd_pad; exact H2.
Qed.

Lemma asciiLower_space (c : N) :
  JS.isWhiteSpace (JS.asciiLower c) = JS.isWhiteSpace c.
Proof.
  unfold JS.asciiLower.
  destruct ((65 <=? c) && (c <=? 90))%N eqn:E; [|reflexivity].
  apply andb_true_iff in E; destruct E as [E1 E2]; apply N.leb_le in E1, E2.
  rewrite !range_not_space by lia; reflexivity.
Qed.

(** X5.  On ASCII text the result does not depend on the case of the
    letters nor on white space before and after the text: two texts that
    differ only in the case of their letters, one of them padded with white
    space on both sides, get the same result. *)
Theorem case_and_padding_ignored
        (fuel : nat) (text1 text2 pad1 pad2 : JS.str) :
  forallb JS.isAscii text1 = true -> forallb JS.isAscii text2 = true ->
  forallb (fun c => JS.isAscii c && JS.isWhiteSpace c) pad1 = true ->
  forallb (fun c => JS.isAscii c && JS.isWhiteSpace c) pad2 = true ->
  map JS.asciiLower text1 = map JS.asciiLower text2 ->
  getCEFRLevelOffline fuel (pad1 ++ text1 ++ pad2)
  = getCEFRLevelOffline fuel text2.
Proof.
  intros A1' A2' P1 P2 E.
  assert (Split : forall p, forallb (fun c => JS.isAscii c && JS.isWhiteSpace c) p = true ->
                            forallb JS.isAscii p = true
                            /\ forallb JS.isWhiteSpace (map JS.asciiLower p) = true).
  { intros p Hp; rewrite !forallb_forall; rewrite forallb_forall in Hp; split.
    - intros c Hc; specialize (Hp c Hc); apply andb_true_iff in Hp; tauto.
    - intros c Hc; apply in_map_iff in Hc; destruct Hc as (d & <- & Hd).
      specialize (Hp d Hd); apply andb_true_iff in Hp.
      rewrite asciiLower_space; tauto. }
  destruct (Split _ P1) as [Q1 W1]; destruct (Split _ P2) as [Q2 W2].
  assert (N : JS.trim (toLowerCase (pad1 ++ text1 ++ pad2))
              = JS.trim (toLowerCase text2)).
  { rewrite (lower_ascii (pad1 ++ text1 ++ pad2))
      by (rewrite !forallb_app, Q1, A1', Q2; reflexivity).
    rewrite (lower_ascii text2) by exact A2'.
    rewrite !map_app, trim_pad by assumption.
    rewrite E; reflexivity. }
  destruct fuel as [|fuel]; [reflexivity|].
  simpl; rewrite N; reflexivity.
Qed.

(** *** A phrase made of two phrases *)










(** *** Punctuation in a phrase *)

Lemma asciiLower_kept (c : N) :
  JS.isWordChar (JS.asciiLower c) || JS.isWhiteSpace (JS.asciiLower c)
  = JS.isWordChar c || JS.isWhiteSpace c.
Proof.
  rewrite asciiLower_space; f_equal.
  unfold JS.asciiLower.
  destruct ((65 <=? c) && (c <=? 90))%N eqn:E; [|reflexivity].
  unfold JS.isWordChar; rewrite E.
  apply andb_true_iff in E; destruct E as [E1 E2]; apply N.leb_le in E1, E2.
  destruct (N.leb_spec 65 (c + 32)); destruct (N.leb_spec (c + 32) 90);
    destruct (N.leb_spec 97 (c + 32)); destruct (N.leb_spec (c + 32) 122);
    simpl; try reflexivity; lia.
Qed.

Lemma removePunctuation_twice (s : JS.str) :
  JS.removePunctuation (map JS.asciiLower (JS.removePunctuation s))
  = JS.removePunctuation (map JS.asciiLower s).
Proof.
  unfold JS.removePunctuation; induction s as [|c s IH]; [reflexivity|].
  cbn [filter map].
  destruct (JS.isWordChar c || JS.isWhiteSpace c) eqn:K.
  - cbn [map filter]; rewrite asciiLower_kept, K, IH; reflexivity.
  - rewrite asciiLower_kept, K; exact IH.
Qed.

(** X7.  Punctuation does not count in a phrase: on ASCII text
    [analyzePhrase] returns the same result for a phrase and for the phrase
    stripped of every code unit that is neither a word character nor white
    space. *)
Theorem punctuation_ignored_in_phrase (fuel : nat) (phrase : JS.str) :
  forallb JS.isAscii phrase = true ->
  analyzePhrase (S fuel) (JS.removePunctuation phrase)
  = analyzePhrase (S fuel) phrase.
Proof.
  intros A.
  assert (Ar : forallb JS.isAscii (JS.removePunctuation phrase) = true).
  { rewrite forallb_forall in *; intros c Hc; apply A.
    unfold JS.removePunctuation in Hc; apply filter_In in Hc; tauto. }
  unfold Offline.analyzePhrase, Offline.analyzePhraseWith, Offline.phraseWords.
  cbv zeta.
  rewrite (lower_ascii _ Ar), (lower_ascii _ A), removePunctuation_twice.
  reflexivity.
Qed.

End ClassifierMore.

(* ================================================================== *)
(** ** More on the remote lookup *)

Section RemoteMore.

Variable toLowerCase : JS.str -> JS.str.
Variable more : N.
Variable toUpperCase : JS.str -> JS.str.
Variable JSON_parse : JS.str -> option json.
Variable https_request : JS.str -> exchange.

Local Abbreviation queryAPI := (Api.queryAPI toLowerCase toUpperCase JSON_parse https_request).
Local Abbreviation tryAPI := (Api.tryAPI toLowerCase toUpperCase JSON_parse https_request).
Local Abbreviation getCEFRLevel :=
  (Api.getCEFRLevel toLowerCase more toUpperCase JSON_parse https_request).

(** A value with a property is an object, and an object is truthy. *)
Lemma prop_some_truthy (v : option json) (key : JS.str) (x : json) :
  prop v key = Some x -> truthyJson v = true.
Proof.
  destruct v as [[| | | | |fields]|]; simpl; try discriminate; reflexivity.
Qed.

(** The promise of [queryAPI] on a response that carries a level string. *)
Lemma queryAPI_level (text data : JS.str) (response : json) (s : JS.str) :
  https_request (toLowerCase text) = ResponseEnd data ->
  JSON_parse data = Some response ->
  carriesLevel response s ->
  queryAPI text = Resolved (toUpperCase s).
Proof.
  intros E P [NE C]; unfold Api.queryAPI; rewrite E, P; cbv zeta.
  assert (T : truthyJson (Some (JString s)) = true)
    by (destruct s; [congruence | reflexivity]).
  destruct C as [N|[F L]].
  - assert (TW : truthyJson (prop (Some response) (JS.lit "word")) = true)
      by (eapply prop_some_truthy; exact N).
    assert (TR : truthyJson (Some response) = true).
    { destruct (prop (Some response) (JS.lit "word")) as [x|] eqn:W;
        [eapply prop_some_truthy; exact W | discriminate TW]. }
    rewrite TR, TW, N, T; reflexivity.
  - rewrite F, andb_false_r.
    rewrite (prop_some_truthy _ _ _ L), L, T; reflexivity.
Qed.

(** X8.  When the response carries a level string ([word.level] if it is
    truthy, else [level]), [getCEFRLevel] returns that string upper-cased,
    whatever it is, unless the upper-cased string is empty or 'UNKNOWN'.  It
    is not compared with the six level names, and the local classifier is
    not consulted: the result is the same with no fuel at all. *)
Theorem remote_level_returned_as_is
        (fuel : nat) (text data : JS.str) (response : json) (s : JS.str) :
  https_request (toLowerCase (JS.trim text)) = ResponseEnd data ->
  JSON_parse data = Some response ->
  carriesLevel response s ->
  JS.truthy (toUpperCase s) = true ->
  JS.eqb (toUpperCase s) (JS.lit "UNKNOWN") = false ->
  getCEFRLevel fuel text = Ok (VStr (toUpperCase s)).
Proof.
  intros E P C T U; unfold Api.getCEFRLevel, Api.tryAPI; cbv zeta.
  rewrite (queryAPI_level _ _ _ _ E P C), T, U; cbn [andb negb].
  destruct (JS.includes (JS.trim text) JS.SPACE); reflexivity.
Qed.

(** X9.  A nested [word.level] that is truthy but no string (a number, an
    object, [true]) makes the promise reject with a TypeError even when the
    top-level [level] holds a level string: the top-level field is not
    looked at, and [getCEFRLevel] answers with the local result. *)
Theorem nested_non_string_level_rejects
        (fuel : nat) (text data : JS.str) (response : json) :
  https_request (toLowerCase (JS.trim text)) = ResponseEnd data ->
  JSON_parse data = Some response ->
  truthyJson (prop (prop (Some response) (JS.lit "word")) (JS.lit "level")) = true ->
  (forall s, prop (prop (Some response) (JS.lit "word")) (JS.lit "level")
             <> Some (JString s)) ->
  queryAPI (JS.trim text) = Rejected TypeError
  /\ getCEFRLevel fuel text
     = (if JS.includes (JS.trim text) JS.SPACE
        then Api.analyzePhrase toLowerCase more fuel (JS.trim text)
        else Api.getBasicCEFRLevel toLowerCase more fuel (JS.trim text)).
Proof.
  intros E P T NS.
  assert (Q : queryAPI (JS.trim text) = Rejected TypeError).
  { unfold Api.queryAPI; rewrite E, P; cbv zeta.
    destruct (prop (prop (Some response) (JS.lit "word")) (JS.lit "level"))
      as [x|] eqn:N; [|discriminate T].
    assert (TW : truthyJson (prop (Some response) (JS.lit "word")) = true)
      by (eapply prop_some_truthy; exact N).
    assert (TR : truthyJson (Some response) = true).
    { destruct (prop (Some response) (JS.lit "word")) as [y|] eqn:W;
        [eapply prop_some_truthy; exact W | discriminate TW]. }
    rewrite TR, TW, T; cbn [andb].
    destruct x; try reflexivity.
    exfalso; exact (NS s eq_refl). }
  split; [exact Q|].
  unfold Api.getCEFRLevel, Api.tryAPI; cbv zeta; rewrite Q.
  destruct (JS.includes (JS.trim text) JS.SPACE); reflexivity.
Qed.

(** X10.  When the level string of the response upper-cases to 'UNKNOWN'
    (or to the empty string) the answer of the service is dropped and
    [getCEFRLevel] returns the local result. *)
Theorem remote_unknown_falls_back
        (fuel : nat) (text data : JS.str) (response : json) (s : JS.str) :
  https_request (toLowerCase (JS.trim text)) = ResponseEnd data ->
  JSON_parse data = Some response ->
  carriesLevel response s ->
  toUpperCase s = JS.lit "UNKNOWN" \/ toUpperCase s = [] ->
  getCEFRLevel fuel text
  = (if JS.includes (JS.trim text) JS.SPACE
     then Api.analyzePhrase toLowerCase more fuel (JS.trim text)
     else Api.getBasicCEFRLevel toLowerCase more fuel (JS.trim text)).
Proof.
  intros E P C U; unfold Api.getCEFRLevel, Api.tryAPI; cbv zeta.
  rewrite (queryAPI_level _ _ _ _ E P C).
  destruct U as [-> | ->];
    destruct (JS.includes (JS.trim text) JS.SPACE); reflexivity.
Qed.

(** In the online annotator too a comment line, a blank line and a line of
    fewer than 12 fields are pushed as they are, whatever the service
    answers. *)
Lemma online_processLine_passthrough (fuel : nat) (entry : JS.str) :
  JS.startsWith (JS.replaceTerminator entry) JS.HASH = true
  \/ JS.trim (JS.replaceTerminator entry) = []
  \/ List.length (JS.split JS.TAB (JS.replaceTerminator entry)) < 12 ->
  Api.processLine toLowerCase more toUpperCase JSON_parse https_request fuel entry
  = Ok (JS.replaceTerminator entry).
Proof.
  intros H; unfold Api.processLine; cbv zeta.
  destruct H as [H|[H|H]].
  - rewrite H; reflexivity.
  - rewrite H; simpl; rewrite orb_true_r; reflexivity.
  - destruct (JS.startsWith _ _ || negb _); [reflexivity|].
    destruct (Nat.leb_spec 12
                (List.length (JS.split JS.TAB (JS.replaceTerminator entry))));
      [lia | reflexivity].
Qed.

(** X12.  The online annotator leaves the comment lines, the blank lines and
    the lines of fewer than 12 fields of the file as they are, whatever the
    remote service answers and with any fuel. *)
Theorem online_passthrough_line_unchanged (fuel : nat) (data entry : JS.str) :
  In entry (JS.split JS.LF data) ->
  blank entry \/ JS.startsWith entry JS.HASH = true
  \/ List.length (JS.split JS.TAB entry) < 12 ->
  Api.processLine toLowerCase more toUpperCase JSON_parse https_request fuel entry
  = Ok entry.
Proof.
  intros Hin H.
  pose proof (entry_unchanged _ _ Hin) as E.
  rewrite online_processLine_passthrough; rewrite E; [reflexivity|].
  destruct H as [H|[H|H]]; [right; left; apply (blank_trim toLowerCase); exact H | auto | auto].
Qed.

Hypothesis lower_ascii : JS.LowerCaseOnAscii toLowerCase.





End RemoteMore.

(* ================================================================== *)
(** ** The annotator with the remote service out of reach *)

Section Unavailable.

Variable toLowerCase : JS.str -> JS.str.
Variable more : N.
Variable toUpperCase : JS.str -> JS.str.
Variable JSON_parse : JS.str -> option json.
Variable https_request : JS.str -> exchange.

Local Abbreviation getCEFRLevel :=
  (Api.getCEFRLevel toLowerCase more toUpperCase JSON_parse https_request).
Local Abbreviation getCEFRLevelOffline := (Offline.getCEFRLevelOffline toLowerCase more).

Lemma trimStart_map (f : N -> N) (s : JS.str) :
  (forall c, JS.isWhiteSpace (f c) = JS.isWhiteSpace c) ->
  JS.trimStart (map f s) = map f (JS.trimStart s).
Proof.
  intros H; induction s as [|c s IH]; simpl; [reflexivity|].
  rewrite H; destruct (JS.isWhiteSpace c); [exact IH | reflexivity].
Qed.

Lemma trim_map (f : N -> N) (s : JS.str) :
  (forall c, JS.isWhiteSpace (f c) = JS.isWhiteSpace c) ->
  JS.trim (map f s) = map f (JS.trim s).
Proof.
  intros H; unfold JS.trim, JS.trimEnd.
  rewrite trimStart_map by exact H.
  rewrite <- map_rev, trimStart_map by exact H.
  rewrite map_rev; reflexivity.
Qed.

Lemma trimStart_idem (s : JS.str) : JS.trimStart (JS.trimStart s) = JS.trimStart s.
Proof.
  induction s as [|c s IH]; simpl; [reflexivity|].
  destruct (JS.isWhiteSpace c) eqn:E; [exact IH|].
  simpl; rewrite E; reflexivity.
Qed.

(** Trimming the end leaves a start that is not white space where it is. *)
Lemma trimStart_trimEnd (s : JS.str) :
  JS.trimStart s = s -> JS.trimStart (JS.trimEnd s) = JS.trimEnd s.
Proof.
  destruct s as [|c r]; [reflexivity|].
  simpl; destruct (JS.isWhiteSpace c) eqn:E.
  - intros H; exfalso.
    destruct (trimStart_suffix r) as (p & Hp & _).
    rewrite H in Hp; apply (f_equal (@List.length N)) in Hp.
    rewrite length_app in Hp; simpl in Hp; lia.
  - intros _; unfold JS.trimEnd; simpl rev.
    rewrite trimStart_app.
    destruct (JS.trimStart (rev r)) as [|d t]; simpl.
    + rewrite E; simpl; rewrite E; reflexivity.
    + rewrite rev_app_distr; simpl; rewrite E; reflexivity.
Qed.

Lemma trim_trim (s : JS.str) : JS.trim (JS.trim s) = JS.trim s.
Proof.
  unfold JS.trim.
  rewrite trimStart_trimEnd by apply trimStart_idem.
  unfold JS.trimEnd; rewrite rev_involutive, trimStart_idem; reflexivity.
Qed.

Lemma trimStart_incl (s : JS.str) (c : N) : In c (JS.trimStart s) -> In c s.
Proof.
  destruct (trimStart_suffix s) as (p & E & _); intros H.
  rewrite E; apply in_or_app; right; exact H.
Qed.

Lemma trim_incl (s : JS.str) (c : N) : In c (JS.trim s) -> In c s.
Proof.
  unfold JS.trim, JS.trimEnd; intros H.
  apply in_rev, trimStart_incl in H; apply in_rev in H.
  apply trimStart_incl; exact H.
Qed.

Lemma replaceTerminator_incl (s : JS.str) (c : N) :
  In c (JS.replaceTerminator s) -> In c s.
Proof.
  induction s as [|x s IH]; simpl; [tauto|].
  destruct (_ || _); [intros [] | intros [H|H]; auto].
Qed.

Lemma ascii_sub (s t : JS.str) :
  (forall c, In c t -> In c s) ->
  forallb JS.isAscii s = true -> forallb JS.isAscii t = true.
Proof.
  rewrite !forallb_forall; intros H A c Hc; apply A, H, Hc.
Qed.

Lemma asciiLower_ascii (s : JS.str) :
  forallb JS.isAscii s = true -> forallb JS.isAscii (map JS.asciiLower s) = true.
Proof.
  rewrite !forallb_forall; intros A c Hc.
  apply in_map_iff in Hc; destruct Hc as (d & <- & Hd); specialize (A d Hd).
  unfold JS.isAscii, JS.asciiLower in *; apply N.ltb_lt in A; apply N.ltb_lt.
  destruct ((65 <=? d) && (d <=? 90))%N eqn:E; [|exact A].
  apply andb_true_iff in E; destruct E as [E1 E2]; apply N.leb_le in E1, E2; lia.
Qed.

Lemma asciiLower_idem (s : JS.str) :
  map JS.asciiLower (map JS.asciiLower s) = map JS.asciiLower s.
Proof.
  rewrite map_map; apply map_ext; intros c; unfold JS.asciiLower.
  destruct ((65 <=? c) && (c <=? 90))%N eqn:E; [|rewrite E; reflexivity].
  apply andb_true_iff in E; destruct E as [E1 E2]; apply N.leb_le in E1, E2.
  destruct (N.leb_spec 65 (c + 32)); destruct (N.leb_spec (c + 32) 90);
    simpl; try reflexivity; lia.
Qed.

Lemma asciiLower_is_space (c : N) :
  N.eqb JS.SPACE (JS.asciiLower c) = N.eqb JS.SPACE c.
Proof.
  unfold JS.asciiLower, JS.SPACE.
  destruct ((65 <=? c) && (c <=? 90))%N eqn:E; [|reflexivity].
  apply andb_true_iff in E; destruct E as [E1 E2]; apply N.leb_le in E1, E2.
  destruct (N.eqb_spec 32 (c + 32)) as [X|X];
    destruct (N.eqb_spec 32 c) as [Y|Y]; try reflexivity; lia.
Qed.

Lemma asciiLower_includes_space (s : JS.str) :
  JS.includes (map JS.asciiLower s) JS.SPACE = JS.includes s JS.SPACE.
Proof.
  unfold JS.includes; induction s as [|c s IH]; [reflexivity|].
  cbn [map existsb]; rewrite IH, asciiLower_is_space; reflexivity.
Qed.

Lemma mapM_ext_In {A B : Type} (f g : A -> result B) (xs : list A) :
  (forall x, In x xs -> f x = g x) -> mapM f xs = mapM g xs.
Proof.
  induction xs as [|x xs IH]; intros E; simpl; [reflexivity|].
  rewrite (E x) by (left; reflexivity).
  rewrite IH by (intros y Hy; apply E; right; exact Hy); reflexivity.
Qed.

Hypothesis lower_ascii : JS.LowerCaseOnAscii toLowerCase.

(** [analyzePhrase] depends on the words of the phrase only, and not on the
    fuel once there is some. *)
Lemma analyzePhrase_by_words (n m : nat) (p q : JS.str) :
  Offline.phraseWords toLowerCase p = Offline.phraseWords toLowerCase q ->
  Offline.analyzePhrase toLowerCase more (S n) p
  = Offline.analyzePhrase toLowerCase more (S m) q.
Proof.
  intros E; unfold Offline.analyzePhrase, Offline.analyzePhraseWith; cbv zeta.
  rewrite E.
  rewrite (mapM_ext_In (getCEFRLevelOffline (S n)) (getCEFRLevelOffline (S m)));
    [reflexivity|].
  intros w Hw.
  pose proof (phraseWords_wordChars toLowerCase q) as F.
  rewrite Forall_forall in F; destruct (F w Hw) as [_ WC].
  rewrite !(word_run toLowerCase more lower_ascii) by exact WC; reflexivity.
Qed.

(** The offline classifier on ASCII text, with the lower-casing written
    out. *)
Lemma offline_on_ascii (fuel : nat) (text : JS.str) :
  forallb JS.isAscii text = true ->
  getCEFRLevelOffline (S (S fuel)) text
  = if JS.includes (JS.trim text) JS.SPACE
    then Offline.analyzePhrase toLowerCase more (S fuel) (JS.trim text)
    else Ok (Offline.wordLevel (map JS.asciiLower (JS.trim text))).
Proof.
  intros A.
  assert (N : JS.trim (toLowerCase text) = map JS.asciiLower (JS.trim text)).
  { rewrite (lower_ascii _ A); apply trim_map; exact asciiLower_space. }
  assert (At : forallb JS.isAscii (JS.trim text) = true)
    by (apply (ascii_sub text); [apply trim_incl | exact A]).
  destruct (JS.includes (JS.trim text) JS.SPACE) eqn:S.
  - rewrite getCEFRLevelOffline_phrase
      by (rewrite N, asciiLower_includes_space; exact S).
    rewrite N; apply analyzePhrase_by_words.
    unfold Offline.phraseWords.
    rewrite (lower_ascii _ (asciiLower_ascii _ At)), (lower_ascii _ At).
    rewrite asciiLower_idem; reflexivity.
  - rewrite getCEFRLevelOffline_word
      by (rewrite N, asciiLower_includes_space; exact S).
    rewrite N; reflexivity.
Qed.

Lemma getCEFRLevel_unavailable (fuel : nat) (text : JS.str) :
  forallb JS.isAscii text = true ->
  remoteFailure JSON_parse (https_request (toLowerCase (JS.trim text))) ->
  getCEFRLevel (S (S fuel)) text = getCEFRLevelOffline (S (S fuel)) text.
Proof.
  intros A F.
  assert (At : forallb JS.isAscii (JS.trim text) = true)
    by (apply (ascii_sub text); [apply trim_incl | exact A]).
  unfold Api.getCEFRLevel; cbv zeta.
  rewrite (tryAPI_failure toLowerCase toUpperCase JSON_parse https_request _ F).
  rewrite (offline_on_ascii fuel text A).
  destruct (JS.includes (JS.trim text) JS.SPACE) eqn:S.
  - rewrite analyzePhrase_same; apply analyzePhrase_by_words; reflexivity.
  - rewrite getBasicCEFRLevel_same, (offline_on_ascii fuel _ At).
    rewrite trim_trim, S; reflexivity.
Qed.

(** X14.  With the remote lookup failing for an item of ASCII text,
    [getCEFRLevel] of [add_cefr_levels.js] returns what
    [getCEFRLevelOffline] of [add_cefr_levels_offline.js] returns for that
    item. *)
Theorem unavailable_remote_same_level (fuel : nat) (text : JS.str) :
  forallb JS.isAscii text = true ->
  remoteFailure JSON_parse (https_request (toLowerCase (JS.trim text))) ->
  getCEFRLevel (S (S fuel)) text = getCEFRLevelOffline (S (S fuel)) text.
Proof.
  intros A F; apply getCEFRLevel_unavailable; assumption.
Qed.

(** With the remote lookup failing for every request, one turn of the loop
    pushes the same line in both files. *)
Lemma unavailable_remote_same_line (fuel : nat) (entry : JS.str) :
  forallb JS.isAscii entry = true ->
  (forall request, remoteFailure JSON_parse (https_request request)) ->
  Api.processLine toLowerCase more toUpperCase JSON_parse https_request (S (S fuel)) entry
  = Offline.processLine toLowerCase more (S (S fuel)) entry.
Proof.
  intros A F; unfold Api.processLine, Offline.processLine; cbv zeta.
  destruct (JS.startsWith _ _ || negb _); [reflexivity|].
  destruct (12 <=? _); [|reflexivity].
  unfold item.
  destruct (nth_error (JS.split JS.TAB (JS.replaceTerminator entry)) 3)
    as [column3|] eqn:E3; [|reflexivity].
  cbn [bind].
  destruct (JS.truthy (JS.trim column3)); [|reflexivity].
  rewrite getCEFRLevel_unavailable; [reflexivity | | apply F].
  apply (ascii_sub entry); [|exact A].
  intros c Hc; apply replaceTerminator_incl.
  apply (split_incl JS.TAB _ column3); [eapply nth_error_In; exact E3|].
  apply trim_incl; exact Hc.
Qed.

(** X15.  On an ASCII file, with the remote lookup failing for every
    request, [processTSVFile] writes the file that [processTSVFileOffline]
    writes. *)
Theorem unavailable_remote_same_file (fuel : nat) (data : JS.str) :
  forallb JS.isAscii data = true ->
  (forall request, remoteFailure JSON_parse (https_request request)) ->
  Api.processTSVFile toLowerCase more toUpperCase JSON_parse https_request (S (S fuel)) data
  = Offline.processTSVFileOffline toLowerCase more (S (S fuel)) data.
Proof.
  intros A F; unfold Api.processTSVFile, Offline.processTSVFileOffline; cbv zeta.
  rewrite (mapM_ext_In
             (Api.processLine toLowerCase more toUpperCase JSON_parse https_request
                              (S (S fuel)))
             (Offline.processLine toLowerCase more (S (S fuel)))); [reflexivity|].
  intros entry Hin; apply unavailable_remote_same_line; [|exact F].
  apply (ascii_sub data); [|exact A].
  intros c Hc; exact (split_incl JS.LF data entry c Hin Hc).
Qed.

End Unavailable.

(* ================================================================== *)
(** ** The further statements on concrete inputs *)


Lemma file_without_records_unchanged_witness :
  Offline.processTSVFileOffline JS.asciiToLowerCase 0%N 0 plainFile = Ok plainFile.
Proof.
  apply (file_without_records_unchanged JS.asciiToLowerCase 0%N 0 plainFile).
  intros entry Hin (NH & Len & _).
  vm_compute in Hin; destruct Hin as [<-|[<-|[<-|[]]]].
  - vm_compute in NH; discriminate NH.
  - vm_compute in Len; lia.
  - vm_compute in Len; lia.
Defined.


Lemma level_C2_only_from_word_set_witness :
  In (JS.trim (JS.asciiToLowerCase (JS.lit "Sophisticated"))) Offline.c2Words
  \/ (JS.includes (JS.trim (JS.asciiToLowerCase (JS.lit "Sophisticated"))) JS.SPACE
      = true
      /\ exists w,
          In w (Offline.phraseWords JS.asciiToLowerCase
                  (JS.trim (JS.asciiToLowerCase (JS.lit "Sophisticated"))))
          /\ In (JS.trim (JS.asciiToLowerCase w)) Offline.c2Words).
Proof.
  apply (level_C2_only_from_word_set JS.asciiToLowerCase 0%N asciiToLowerCase_onAscii
           0 (JS.lit "Sophisticated")).
  vm_compute; reflexivity.
Defined.

Lemma case_and_padding_ignored_witness :
  Offline.getCEFRLevelOffline JS.asciiToLowerCase 0%N 2
    (JS.lit "  " ++ JS.lit "Beautiful Day" ++ [JS.TAB])
  = Offline.getCEFRLevelOffline JS.asciiToLowerCase 0%N 2 (JS.lit "beautiful day").
Proof.
  apply (case_and_padding_ignored JS.asciiToLowerCase 0%N asciiToLowerCase_onAscii
           2 (JS.lit "Beautiful Day") (JS.lit "beautiful day")
           (JS.lit "  ") [JS.TAB]); reflexivity.
Defined.


Lemma punctuation_ignored_in_phrase_witness :
  Offline.analyzePhrase JS.asciiToLowerCase 0%N 1
    (JS.removePunctuation (JS.lit "don't stop, please!"))
  = Offline.analyzePhrase JS.asciiToLowerCase 0%N 1 (JS.lit "don't stop, please!").
Proof.
  apply (punctuation_ignored_in_phrase JS.asciiToLowerCase 0%N asciiToLowerCase_onAscii
           0 (JS.lit "don't stop, please!")); reflexivity.
Defined.

(** The nested level "c1" is returned for "cat", an A1 word, and the
    top-level "a1" is not looked at. *)
Lemma remote_level_returned_as_is_witness :
  Api.getCEFRLevel JS.asciiToLowerCase 0%N asciiToUpperCase
    (fun _ => Some nestedResponse) (fun _ => ResponseEnd []) 0 (JS.lit "cat")
  = Ok (VStr (asciiToUpperCase (JS.lit "c1"))).
Proof.
  apply (remote_level_returned_as_is JS.asciiToLowerCase 0%N asciiToUpperCase
           (fun _ => Some nestedResponse) (fun _ => ResponseEnd [])
           0 (JS.lit "cat") [] nestedResponse (JS.lit "c1")).
  - reflexivity.
  - reflexivity.
  - split; [discriminate | left; reflexivity].
  - reflexivity.
  - reflexivity.
Defined.

Lemma nested_non_string_level_rejects_witness :
  Api.queryAPI JS.asciiToLowerCase asciiToUpperCase
    (fun _ => Some numberResponse) (fun _ => ResponseEnd []) (JS.trim (JS.lit "cat"))
  = Rejected TypeError
  /\ Api.getCEFRLevel JS.asciiToLowerCase 0%N asciiToUpperCase
       (fun _ => Some numberResponse) (fun _ => ResponseEnd []) 2 (JS.lit "cat")
     = Api.getBasicCEFRLevel JS.asciiToLowerCase 0%N 2 (JS.trim (JS.lit "cat")).
Proof.
  apply (nested_non_string_level_rejects JS.asciiToLowerCase 0%N asciiToUpperCase
           (fun _ => Some numberResponse) (fun _ => ResponseEnd [])
           2 (JS.lit "cat") [] numberResponse).
  - reflexivity.
  - reflexivity.
  - reflexivity.
  - intros s; vm_compute; discriminate.
Defined.

Lemma remote_unknown_falls_back_witness :
  Api.getCEFRLevel JS.asciiToLowerCase 0%N asciiToUpperCase
    (fun _ => Some unknownResponse) (fun _ => ResponseEnd []) 2 (JS.lit "cat")
  = Api.getBasicCEFRLevel JS.asciiToLowerCase 0%N 2 (JS.trim (JS.lit "cat")).
Proof.
  apply (remote_unknown_falls_back JS.asciiToLowerCase 0%N asciiToUpperCase
           (fun _ => Some unknownResponse) (fun _ => ResponseEnd [])
           2 (JS.lit "cat") [] unknownResponse (JS.lit "unknown")).
  - reflexivity.
  - reflexivity.
  - split; [discriminate | right; split; reflexivity].
  - left; reflexivity.
Defined.


Lemma online_passthrough_line_unchanged_witness :
  Api.processLine JS.asciiToLowerCase 0%N asciiToUpperCase
    (fun _ => Some nestedResponse) (fun _ => ResponseEnd []) 0 (JS.lit "#note")
  = Ok (JS.lit "#note").
Proof.
  apply (online_passthrough_line_unchanged JS.asciiToLowerCase 0%N asciiToUpperCase
           (fun _ => Some nestedResponse) (fun _ => ResponseEnd [])
           0 (JS.lit "#note") (JS.lit "#note")).
  - left; reflexivity.
  - right; left; reflexivity.
Defined.


Lemma unavailable_remote_same_level_witness :
  Api.getCEFRLevel JS.asciiToLowerCase 0%N asciiToUpperCase
    (fun _ => None) (fun _ => SocketTimeout) 2 (JS.lit "This is a beautiful day")
  = Offline.getCEFRLevelOffline JS.asciiToLowerCase 0%N 2
      (JS.lit "This is a beautiful day").
Proof.
  apply (unavailable_remote_same_level JS.asciiToLowerCase 0%N asciiToUpperCase
           (fun _ => None) (fun _ => SocketTimeout) asciiToLowerCase_onAscii
           0 (JS.lit "This is a beautiful day")).
  - reflexivity.
  - left; reflexivity.
Defined.

Lemma unavailable_remote_same_file_witness :
  Api.processTSVFile JS.asciiToLowerCase 0%N asciiToUpperCase
    (fun _ => None) (fun _ => RequestError) 2 catFile
  = Offline.processTSVFileOffline JS.asciiToLowerCase 0%N 2 catFile.
Proof.
  apply (unavailable_remote_same_file JS.asciiToLowerCase 0%N asciiToUpperCase
           (fun _ => None) (fun _ => RequestError) asciiToLowerCase_onAscii
           0 catFile).
  - reflexivity.
  - intros request; right; left; reflexivity.
Defined.

